(** * edge-next-starter: environment validation and authentication wiring

    A shallow embedding of [src/lib/config/env.ts] and
    [src/lib/auth/config.ts], and the properties of the two components
    (Environment Validator, Authentication Configurator).

    Conventions of the embedding.
    - [process.env] is a finite map from variable names to strings; a
      variable that is not set reads as [undefined], i.e. [None].
    - JavaScript strings are modelled as byte strings (UTF-8).
    - A JavaScript number is a binary64 value; a finite one is kept as the
      rational it denotes (negative zero is identified with zero).
    - The zod schema combinators used by [env.ts] are modelled by their
      parsing behaviour (zod 4, where [superRefine] keeps the object type
      that [merge] needs): a payload carries the parsed value and the
      issues raised so far, and an issue either lets the later checks run
      or aborts them.
    - The persistence client and the password verifier are collaborators:
      [authorize] is a program over their calls, run against any pair of
      them.
    - The URL parser behind [z.string().url()] is a parameter [isURL]. *)

From Stdlib Require Import ZArith QArith String Ascii List Bool Lia.
From Stdlib Require Import DecimalString.
From stdpp Require Import base option list strings gmap.

Import ListNotations.
#[local] Open Scope string_scope.
#[local] Open Scope list_scope.

(* ===================================================================== *)
(** * JavaScript numbers and the [Number(string)] coercion *)
(* ===================================================================== *)

Module JsNumber.

(** A JavaScript number: NaN, an infinity, or a finite binary64 value
    (kept as a reduced rational). *)
Inductive number : Type :=
| NaN
| Infinity (negative : bool)
| Finite (q : Q).

(** [a <= b] on finite values. *)
Definition leb (a b : Q) : bool := Qle_bool a b.

(** An integer literal of the source, as a number value. *)
Definition lit (z : Z) : Q := inject_Z z.

(** ** Rounding an exact rational to binary64 (round to nearest, ties to
    even), with gradual underflow and overflow to infinity. *)

(** [pow2_le n d e] decides [2^e <= n/d]. *)
Definition pow2_le (n d : positive) (e : Z) : bool :=
  if (0 <=? e)%Z then (Z.pos d * 2 ^ e <=? Z.pos n)%Z
  else (Z.pos d <=? Z.pos n * 2 ^ (- e))%Z.

(** [ilog2 n d] is the floor of the binary logarithm of [n/d]. *)
Definition ilog2 (n d : positive) : Z :=
  let e0 := (Z.log2 (Z.pos n) - Z.log2 (Z.pos d))%Z in
  if pow2_le n d e0 then e0 else (e0 - 1)%Z.

(** Nearest integer to [N/D] ([D > 0]), ties to the even one. *)
Definition round_half_even (N D : Z) : Z :=
  let (k, r) := Z.div_eucl N D in
  match (2 * r ?= D)%Z with
  | Lt => k
  | Gt => (k + 1)%Z
  | Eq => if Z.even k then k else (k + 1)%Z
  end.

Definition round_pos (n d : positive) : number :=
  let e := ilog2 n d in
  if (1024 <=? e)%Z then Infinity false
  else
    (* exponent of the last place: 53 significant bits, or the
       subnormal quantum 2^-1074 *)
    let qe := Z.max (e - 52) (-1074) in
    let m :=
      if (qe <? 0)%Z then round_half_even (Z.pos n * 2 ^ (- qe)) (Z.pos d)
      else round_half_even (Z.pos n) (Z.pos d * 2 ^ qe) in
    if ((qe =? 971)%Z && (m =? 2 ^ 53)%Z)%bool then Infinity false
    else if (qe <? 0)%Z then Finite (Qred (m # Z.to_pos (2 ^ (- qe))))
    else Finite (inject_Z (m * 2 ^ qe)).

Definition negate (x : number) : number :=
  match x with
  | NaN => NaN
  | Infinity s => Infinity (negb s)
  | Finite q => Finite (Qred (- q))
  end.

(** The binary64 value nearest to the exact rational [num / den]. *)
Definition round_binary64 (num : Z) (den : positive) : number :=
  match num with
  | Z0 => Finite (inject_Z 0)
  | Zpos n => round_pos n den
  | Zneg n => negate (round_pos n den)
  end.

(** ** StringToNumber (ECMAScript 7.1.4.1.1) *)

(** The white space and line terminator code points that are trimmed,
    in UTF-8: TAB, LF, VT, FF, CR, SP, U+00A0, U+1680, U+2000..U+200A,
    U+2028, U+2029, U+202F, U+205F, U+3000, U+FEFF. *)
Definition bytes (l : list nat) : list ascii := map ascii_of_nat l.

Definition StrWhiteSpaceChars : list (list ascii) :=
  map bytes
    ([[9]; [10]; [11]; [12]; [13]; [32]; [194; 160]; [225; 154; 128]] ++
     map (fun k => [226; 128; 128 + k]) (seq 0 11) ++
     [[226; 128; 168]; [226; 128; 169]; [226; 128; 175];
      [226; 129; 159]; [227; 128; 128]; [239; 187; 191]])%nat.

Fixpoint strip_prefix (p l : list ascii) : option (list ascii) :=
  match p, l with
  | [], _ => Some l
  | a :: p', b :: l' => if Ascii.eqb a b then strip_prefix p' l' else None
  | _ :: _, [] => None
  end.

Fixpoint strip_any (ps : list (list ascii)) (l : list ascii)
  : option (list ascii) :=
  match ps with
  | [] => None
  | p :: ps' =>
      match strip_prefix p l with
      | Some r => Some r
      | None => strip_any ps' l
      end
  end.

Fixpoint trim_start (fuel : nat) (ws : list (list ascii)) (l : list ascii)
  : list ascii :=
  match fuel with
  | O => l
  | S fuel' =>
      match strip_any ws l with
      | Some r => trim_start fuel' ws r
      | None => l
      end
  end.

Definition trim (l : list ascii) : list ascii :=
  let l1 := trim_start (length l) StrWhiteSpaceChars l in
  rev (trim_start (length l1) (map (@rev ascii) StrWhiteSpaceChars) (rev l1)).

(** Value of a digit in the given radix, if it is one. *)
Definition digit_value (radix : N) (c : ascii) : option N :=
  let n := N_of_ascii c in
  let v :=
    if ((48 <=? n) && (n <=? 57))%N then Some (n - 48)%N
    else if ((97 <=? n) && (n <=? 102))%N then Some (n - 87)%N
    else if ((65 <=? n) && (n <=? 70))%N then Some (n - 55)%N
    else None in
  match v with
  | Some d => if (d <? radix)%N then Some d else None
  | None => None
  end.

(** The longest prefix of digits: its digit count, its value, the rest. *)
Fixpoint digits (radix : N) (acc : N) (count : nat) (l : list ascii)
  : nat * N * list ascii :=
  match l with
  | c :: l' =>
      match digit_value radix c with
      | Some d => digits radix (acc * radix + d)%N (S count) l'
      | None => (count, acc, l)
      end
  | [] => (count, acc, l)
  end.

(** [ExponentPart opt]: nothing, or e/E, an optional sign and at least one
    digit. [None] when an exponent marker is not followed by digits. *)
Definition exponent_part (l : list ascii) : option (Z * list ascii) :=
  match l with
  | c :: l' =>
      if (Ascii.eqb c "e" || Ascii.eqb c "E")%bool then
        let '(neg, l'') :=
          match l' with
          | s :: r =>
              if Ascii.eqb s "-" then (true, r)
              else if Ascii.eqb s "+" then (false, r)
              else (false, l')
          | [] => (false, l')
          end in
        match digits 10 0 0 l'' with
        | (O, _, _) => None
        | (_, v, rest) =>
            Some (if neg then (- Z.of_N v)%Z else Z.of_N v, rest)
        end
      else Some (0%Z, l)
  | [] => Some (0%Z, l)
  end.

(** The exact value [m * 10^e] rounded to binary64. *)
Definition decimal_value (m : N) (e : Z) : number :=
  if (0 <=? e)%Z then round_binary64 (Z.of_N m * 10 ^ e) 1
  else round_binary64 (Z.of_N m) (Z.to_pos (10 ^ (- e))).

(** [StrUnsignedDecimalLiteral]: Infinity, or digits with an optional
    fraction and exponent; the whole input must be consumed. *)
Definition unsigned_decimal (l : list ascii) : number :=
  if decide (l = list_ascii_of_string "Infinity") then Infinity false
  else
    let '(n1, v1, r1) := digits 10 0 0 l in
    let '(n2, v2, r2) :=
      match r1 with
      | c :: r => if Ascii.eqb c "." then digits 10 v1 0 r else (O, v1, r1)
      | [] => (O, v1, r1)
      end in
    match (n1 + n2)%nat with
    | O => NaN
    | _ =>
        match exponent_part r2 with
        | Some (e, []) => decimal_value v2 (e - Z.of_nat n2)
        | _ => NaN
        end
    end.

(** [NonDecimalIntegerLiteral]: 0x, 0o or 0b and at least one digit. *)
Definition non_decimal (l : list ascii) : option number :=
  match l with
  | z :: p :: r =>
      if Ascii.eqb z "0" then
        let radix :=
          if (Ascii.eqb p "x" || Ascii.eqb p "X")%bool then Some 16%N
          else if (Ascii.eqb p "o" || Ascii.eqb p "O")%bool then Some 8%N
          else if (Ascii.eqb p "b" || Ascii.eqb p "B")%bool then Some 2%N
          else None in
        match radix with
        | Some rx =>
            match digits rx 0 0 r with
            | (S _, v, []) => Some (round_binary64 (Z.of_N v) 1)
            | _ => Some NaN
            end
        | None => None
        end
      else None
  | _ => None
  end.

(** [Number(s)] for a string [s]. *)
Definition Number (s : string) : number :=
  match trim (list_ascii_of_string s) with
  | [] => Finite (inject_Z 0)
  | (c :: r) as l =>
      match non_decimal l with
      | Some x => x
      | None =>
          if Ascii.eqb c "-" then negate (unsigned_decimal r)
          else if Ascii.eqb c "+" then unsigned_decimal r
          else unsigned_decimal l
      end
  end.

End JsNumber.

(* ===================================================================== *)
(** * The zod schema combinators used by [env.ts] *)
(* ===================================================================== *)

Module Zod.

Import JsNumber.

Inductive ZodIssueCode : Type :=
| invalid_type | invalid_value | too_small | too_big | invalid_format | custom.

(** An issue: its code, the path of the offending field, and the message
    when the schema supplies one ([None]: the library's default wording). *)
Record ZodIssue : Type := mkIssue {
  code : ZodIssueCode;
  path : list string;
  message : option string;
}.

(** A type or enumeration mismatch stops the checks that follow; a failed
    check (length, bound, format, refinement) lets them continue. *)
Definition continue (i : ZodIssue) : bool :=
  match code i with
  | invalid_type | invalid_value => false
  | too_small | too_big | invalid_format | custom => true
  end.

(** The state of a parse: the value, when one of the output type was
    produced, and the issues raised so far, in order. *)
Record Payload (A : Type) : Type := mkPayload {
  value : option A;
  issues : list ZodIssue;
}.
Arguments mkPayload {A} _ _.
Arguments value {A} _.
Arguments issues {A} _.

Definition aborted {A} (p : Payload A) : bool :=
  existsb (fun i => negb (continue i)) (issues p).

Definition valid {A} (v : A) : Payload A := mkPayload (Some v) [].
Definition invalid {A} (c : ZodIssueCode) : Payload A :=
  mkPayload None [mkIssue c [] None].

(** A schema reads the raw input: a string, or [undefined]. *)
Definition Schema (A : Type) : Type := option string -> Payload A.

(** A check runs on the value unless parsing was aborted, and appends the
    issues it raises. *)
Definition check {A} (chk : A -> list ZodIssue) (p : Payload A) : Payload A :=
  if aborted p then p
  else match value p with
       | Some v => mkPayload (Some v) (issues p ++ chk v)
       | None => p
       end.

(** [z.string()] *)
Definition string_ : Schema string := fun input =>
  match input with
  | Some s => valid s
  | None => invalid invalid_type
  end.

(** [.min(n, msg)] on a string schema *)
Definition min_length (n : nat) (msg : option string) (s : Schema string)
  : Schema string := fun input =>
  check (fun v => if (n <=? String.length v)%nat then []
                  else [mkIssue too_small [] msg]) (s input).

(** [.url()] on a string schema; [isURL] is the URL parser's verdict. *)
Definition url (isURL : string -> bool) (s : Schema string)
  : Schema string := fun input =>
  check (fun v => if isURL v then [] else [mkIssue invalid_format [] None])
        (s input).

(** [z.enum([...])] *)
Definition enum (options : list string) : Schema string := fun input =>
  match input with
  | Some s => if existsb (String.eqb s) options then valid s
              else invalid invalid_value
  | None => invalid invalid_value
  end.

(** [z.coerce.number()]: [Number(input)], which must be a finite number. *)
Definition coerce_number : Schema Q := fun input =>
  match input with
  | Some s =>
      match Number s with
      | Finite q => valid q
      | NaN | Infinity _ => invalid invalid_type
      end
  | None => invalid invalid_type   (* Number(undefined) is NaN *)
  end.

(** [.min(k)] and [.max(k)] on a number schema (inclusive bounds) *)
Definition min (k : Z) (s : Schema Q) : Schema Q := fun input =>
  check (fun v => if leb (lit k) v then [] else [mkIssue too_small [] None])
        (s input).

Definition max (k : Z) (s : Schema Q) : Schema Q := fun input =>
  check (fun v => if leb v (lit k) then [] else [mkIssue too_big [] None])
        (s input).

(** [.default(d)]: an undefined input yields [d] at once. *)
Definition default {A} (d : A) (s : Schema A) : Schema A := fun input =>
  match input with
  | None => valid d
  | Some _ => s input
  end.

(** [.optional()] *)
Definition optional {A} (s : Schema A) : Schema (option A) := fun input =>
  match input with
  | None => valid None
  | Some _ => let p := s input in mkPayload (Some <$> value p) (issues p)
  end.

(** [.transform(f)]: [f] runs only on an input that raised no issue. *)
Definition transform {A B} (f : A -> B) (s : Schema A) : Schema B :=
  fun input =>
  let p := s input in
  match issues p with
  | [] => mkPayload (f <$> value p) []
  | _ :: _ => mkPayload None (issues p)
  end.

(** A property of [z.object({...})]: the field schema applied to the
    property of the input, its issues prefixed with the key. *)
Definition prefixIssues (key : string) (l : list ZodIssue) : list ZodIssue :=
  map (fun i => mkIssue (code i) (key :: path i) (message i)) l.

Definition property {A} (key : string) (s : Schema A)
    (input : gmap string string) : Payload A :=
  let p := s (input !! key) in
  mkPayload (value p) (prefixIssues key (issues p)).

(** Properties are parsed in the order of the shape; the object has a
    value when every property has one, and collects all issues. *)
Definition ap {A B} (pf : Payload (A -> B)) (pa : Payload A) : Payload B :=
  mkPayload
    match value pf, value pa with
    | Some f, Some a => Some (f a)
    | _, _ => None
    end
    (issues pf ++ issues pa).

(** [.superRefine(fn)]: [fn] is a check on the parsed object; the issues
    it adds are its result. *)
Definition superRefine {A} (fn : A -> list ZodIssue) (p : Payload A)
  : Payload A := check fn p.

(** [schema.parse(input)]: the value, or a [ZodError] with the issues. *)
Inductive ParseResult (A : Type) : Type :=
| Success (data : A)
| ZodError (errors : list ZodIssue).
Arguments Success {A} _.
Arguments ZodError {A} _.

Definition parse {A} (p : Payload A) : ParseResult A :=
  match issues p, value p with
  | [], Some v => Success v
  | l, _ => ZodError l
  end.

End Zod.

(* ===================================================================== *)
(** * Outcomes of a call that may throw, and what it wrote to the console *)
(* ===================================================================== *)

(** A call either returns a value or throws an [Error] with a message. *)
Inductive Outcome (A : Type) : Type :=
| Returns (v : A)
| Throws (message : string).
Arguments Returns {A} _.
Arguments Throws {A} _.

(** JavaScript truthiness of a string that may be undefined or null. *)
Definition truthy (v : option string) : bool :=
  match v with
  | Some s => negb (String.eqb s "")
  | None => false
  end.

(* ===================================================================== *)
(** * [src/lib/config/env.ts] *)
(* ===================================================================== *)

Module EnvConfig.

Import JsNumber Zod.

(** [Env = z.infer<typeof envSchema>] *)
Record Env : Type := mkEnv {
  NODE_ENV : string;
  NEXTAUTH_SECRET : string;
  NEXTAUTH_URL : option string;
  AUTH_TRUST_HOST : bool;
  GOOGLE_CLIENT_ID : option string;
  GOOGLE_CLIENT_SECRET : option string;
  RATE_LIMIT_ENABLED : bool;
  RATE_LIMIT_MAX_REQUESTS : Q;
  RATE_LIMIT_WINDOW_SECONDS : Q;
  ANALYTICS_ENABLED : bool;
  ANALYTICS_SINK : string;
  LOG_LEVEL : string;
  LOG_FORMAT : string;
  LOG_INCLUDE_TIMESTAMP : bool;
  DATABASE_QUERY_TIMEOUT : Q;
  CACHE_DEFAULT_TTL : Q;
  ENABLE_PERFORMANCE_MONITORING : bool;
  SLOW_QUERY_THRESHOLD_MS : Q;
}.

(** [parsed.AUTH_TRUST_HOST = b] *)
Definition set_AUTH_TRUST_HOST (b : bool) (e : Env) : Env :=
  mkEnv (NODE_ENV e) (NEXTAUTH_SECRET e) (NEXTAUTH_URL e) b
        (GOOGLE_CLIENT_ID e) (GOOGLE_CLIENT_SECRET e)
        (RATE_LIMIT_ENABLED e) (RATE_LIMIT_MAX_REQUESTS e)
        (RATE_LIMIT_WINDOW_SECONDS e) (ANALYTICS_ENABLED e)
        (ANALYTICS_SINK e) (LOG_LEVEL e) (LOG_FORMAT e)
        (LOG_INCLUDE_TIMESTAMP e) (DATABASE_QUERY_TIMEOUT e)
        (CACHE_DEFAULT_TTL e) (ENABLE_PERFORMANCE_MONITORING e)
        (SLOW_QUERY_THRESHOLD_MS e).

(** The issue added by the refinement of [envSchema]. *)
Definition oauth_pair_issue : ZodIssue :=
  mkIssue custom ["GOOGLE_CLIENT_ID"]
    (Some "GOOGLE_CLIENT_ID and GOOGLE_CLIENT_SECRET must be provided together").

(** The callback given to [superRefine]. *)
Definition refine_oauth_pair (value : Env) : list ZodIssue :=
  if (truthy (GOOGLE_CLIENT_ID value) && negb (truthy (GOOGLE_CLIENT_SECRET value)))
     || (negb (truthy (GOOGLE_CLIENT_ID value)) && truthy (GOOGLE_CLIENT_SECRET value))
  then [oauth_pair_issue]
  else [].

(** What the console shows: a fixed line, or the line of one issue
    ([path.join('.')] and the issue's message). The leading glyph of the
    two headline messages is left out. *)
Inductive ConsoleLine : Type :=
| Line (text : string)
| IssueLine (path : string) (message : option string).

Definition isTrue (val : string) : bool := String.eqb val "true".

Section WithURLParser.

(** The verdict of the runtime's URL parser on a string. *)
Variable isURL : string -> bool.

Notation "f <*> x" := (ap f x) (at level 61, left associativity).

(** The [z.object({...})] of [envSchema], applied to an input object. *)
Definition envObject (input : gmap string string) : Payload Env :=
    (valid mkEnv
     <*> property "NODE_ENV"
           (default "development" (enum ["development"; "production"; "test"])) input
     <*> property "NEXTAUTH_SECRET"
           (default "dev-secret"
              (min_length 1 (Some "NEXTAUTH_SECRET is required") string_)) input
     <*> property "NEXTAUTH_URL" (optional (url isURL string_)) input
     <*> property "AUTH_TRUST_HOST"
           (transform isTrue (default "false" (enum ["true"; "false"]))) input
     <*> property "GOOGLE_CLIENT_ID"
           (optional
              (min_length 1 (Some "GOOGLE_CLIENT_ID must be a non-empty string")
                 string_)) input
     <*> property "GOOGLE_CLIENT_SECRET"
           (optional
              (min_length 1 (Some "GOOGLE_CLIENT_SECRET must be a non-empty string")
                 string_)) input
     <*> property "RATE_LIMIT_ENABLED"
           (transform isTrue (default "true" (enum ["true"; "false"]))) input
     <*> property "RATE_LIMIT_MAX_REQUESTS"
           (default (lit 100) (max 10000 (min 1 coerce_number))) input
     <*> property "RATE_LIMIT_WINDOW_SECONDS"
           (default (lit 60) (max 3600 (min 1 coerce_number))) input
     <*> property "ANALYTICS_ENABLED"
           (transform isTrue (default "true" (enum ["true"; "false"]))) input
     <*> property "ANALYTICS_SINK"
           (default "log" (enum ["log"; "kv"; "d1"; "engine"])) input
     <*> property "LOG_LEVEL"
           (default "INFO" (enum ["DEBUG"; "INFO"; "WARN"; "ERROR"])) input
     <*> property "LOG_FORMAT" (default "json" (enum ["json"; "pretty"])) input
     <*> property "LOG_INCLUDE_TIMESTAMP"
           (transform isTrue (default "true" (enum ["true"; "false"]))) input
     <*> property "DATABASE_QUERY_TIMEOUT"
           (default (lit 5000) (max 30000 (min 1000 coerce_number))) input
     <*> property "CACHE_DEFAULT_TTL"
           (default (lit 3600) (max 86400 (min 1 coerce_number))) input
     <*> property "ENABLE_PERFORMANCE_MONITORING"
           (transform isTrue (default "true" (enum ["true"; "false"]))) input
     <*> property "SLOW_QUERY_THRESHOLD_MS"
           (default (lit 1000) (max 10000 (min 100 coerce_number))) input).

(** [envSchema]: the object, then the refinement. *)
Definition envSchema (input : gmap string string) : Payload Env :=
  superRefine refine_oauth_pair (envObject input).

Definition guard_message : string :=
  "NEXTAUTH_SECRET must be configured for production environments".

Definition validation_message : string :=
  "Environment variable validation failed. Please check configuration".

Definition issue_line (err : ZodIssue) : ConsoleLine :=
  IssueLine (String.concat "." (path err)) (message err).

(** [validateEnv()], reading [process.env]: the lines written with
    [console.error] and the outcome. *)
Definition validateEnv (process_env : gmap string string)
  : list ConsoleLine * Outcome Env :=
  match parse (envSchema process_env) with
  | Success parsed =>
      let parsed :=
        if Bool.eqb (AUTH_TRUST_HOST parsed) false
           && negb (truthy (process_env !! "AUTH_TRUST_HOST"))
           && (truthy (process_env !! "CF_PAGES")
               || truthy (process_env !! "VERCEL"))
        then set_AUTH_TRUST_HOST true parsed
        else parsed in
      let isCI := bool_decide (process_env !! "CI" = Some "true") in
      let isBuildTime :=
        bool_decide (process_env !! "NEXT_PHASE" = Some "phase-production-build") in
      if String.eqb (NEXTAUTH_SECRET parsed) "dev-secret"
         && String.eqb (NODE_ENV parsed) "production"
         && negb isCI && negb isBuildTime
      then
        ([Line "NEXTAUTH_SECRET is using the default development value. Please set a secure secret in production."],
         Throws guard_message)
      else ([], Returns parsed)
  | ZodError errors =>
      ([Line "Environment variable validation failed:";
        Line "-----------------------------------"]
       ++ map issue_line errors
       ++ [Line "-----------------------------------";
           Line "Please check environment variable configuration in .env.local or wrangler.toml"],
       Throws validation_message)
  end.

(** [isProduction()], [isDevelopment()] and [isTest()], on the exported
    [env = validateEnv()]. *)
Definition isProduction (env : Env) : bool := String.eqb (NODE_ENV env) "production".
Definition isDevelopment (env : Env) : bool := String.eqb (NODE_ENV env) "development".
Definition isTest (env : Env) : bool := String.eqb (NODE_ENV env) "test".

End WithURLParser.

End EnvConfig.

(* ===================================================================== *)
(** * [src/lib/auth/config.ts] *)
(* ===================================================================== *)

Module AuthConfig.

Import EnvConfig.

(** The JavaScript values held by tokens, users and sessions. *)
Inductive JsValue : Type :=
| undefined
| null
| Str (s : string)
| Num (n : JsNumber.number)
| Boolean (b : bool).

Definition nullable (v : option string) : JsValue :=
  match v with
  | Some s => Str s
  | None => null
  end.

(** A row of the user table, as the persistence client returns it. *)
Record UserRow : Type := mkUserRow {
  row_id : Z;
  row_email : string;
  row_name : option string;
  row_image : option string;
  row_password : option string;
}.

(** The authentication library's [User]. *)
Record User : Type := mkUser {
  id : JsValue;
  email : JsValue;
  name : JsValue;
  image : JsValue;
}.

(** The submitted credentials; a field that was not submitted is [None]. *)
Record Credentials : Type := mkCredentials {
  cred_email : option string;
  cred_password : option string;
}.

(** [n.toString()] for an integer id: its decimal numeral. *)
Definition toString (n : Z) : string := NilZero.string_of_int (Z.to_int n).

(** ** Programs that call the two collaborators

    [authorize] awaits the persistence client and the password verifier.
    A program is the tree of these calls; running it against given
    collaborators yields the calls made, in order, and the outcome. *)
Inductive Async (A : Type) : Type :=
| Return (a : A)
| Throw (message : string)
| FindUnique (where_email : string) (k : option UserRow -> Async A)
| VerifyPassword (password hash : string) (k : bool -> Async A).
Arguments Return {A} _.
Arguments Throw {A} _.
Arguments FindUnique {A} _ _.
Arguments VerifyPassword {A} _ _ _.

Fixpoint bind {A B} (m : Async A) (f : A -> Async B) : Async B :=
  match m with
  | Return a => f a
  | Throw msg => Throw msg
  | FindUnique e k => FindUnique e (fun r => bind (k r) f)
  | VerifyPassword p h k => VerifyPassword p h (fun r => bind (k r) f)
  end.

Definition prisma_user_findUnique (where_email : string)
  : Async (option UserRow) := FindUnique where_email Return.

Definition verifyPassword (password hash : string) : Async bool :=
  VerifyPassword password hash Return.

Declare Scope async_scope.
Delimit Scope async_scope with async.
Notation "'let*' x ':=' 'await' m 'in' k" := (bind m (fun x => k))
  (at level 10, x name, m at level 100, k at level 200) : async_scope.

Inductive Call : Type :=
| CallFindUnique (where_email : string)
| CallVerifyPassword (password hash : string).

(** The collaborators of section 6 of the specification. *)
Class Collaborators : Type := {
  findUnique : string -> option UserRow;
  verify : string -> string -> bool;
}.

Fixpoint run `{Collaborators} {A} (m : Async A) : list Call * Outcome A :=
  match m with
  | Return a => ([], Returns a)
  | Throw msg => ([], Throws msg)
  | FindUnique e k =>
      let '(calls, r) := run (k (findUnique e)) in
      (CallFindUnique e :: calls, r)
  | VerifyPassword p h k =>
      let '(calls, r) := run (k (verify p h)) in
      (CallVerifyPassword p h :: calls, r)
  end.

(** ** The credentials provider *)

Definition missing_credentials_message : string :=
  "Please provide email and password".
Definition invalid_credentials_message : string :=
  "Invalid email or password".

#[local] Open Scope async_scope.

(** [authorize(credentials)] *)
Definition authorize (credentials : option Credentials) : Async User :=
  if negb (truthy (credentials ≫= cred_email))
     || negb (truthy (credentials ≫= cred_password))
  then Throw missing_credentials_message
  else
    let* user := await prisma_user_findUnique
                         (default "" (credentials ≫= cred_email)) in
    match user with
    | None => Throw invalid_credentials_message
    | Some user =>
        if negb (truthy (row_password user))
        then Throw invalid_credentials_message
        else
          let* isPasswordValid :=
            await verifyPassword (default "" (credentials ≫= cred_password))
                                 (default "" (row_password user)) in
          if negb isPasswordValid
          then Throw invalid_credentials_message
          else Return {| id := Str (toString (row_id user));
                         email := Str (row_email user);
                         name := nullable (row_name user);
                         image := nullable (row_image user) |}
    end.

(** ** The callbacks *)

(** A property read on an object: [undefined] when it is not there. *)
Definition get (o : gmap string JsValue) (key : string) : JsValue :=
  default undefined (o !! key).

(** [jwt({ token, user })] *)
Definition jwt (token : gmap string JsValue) (user : option User)
  : gmap string JsValue :=
  match user with
  | Some user =>
      <["picture" := image user]>
        (<["name" := name user]>
           (<["email" := email user]>
              (<["id" := id user]> token)))
  | None => token
  end.

(** The session object: its user projection, when there is one, and its
    expiry. *)
Record Session : Type := mkSession {
  session_user : option (gmap string JsValue);
  expires : string;
}.

(** [session({ session, token })] *)
Definition session (session : Session) (token : option (gmap string JsValue))
  : Session :=
  match token, session_user session with
  | Some token, Some user =>
      {| session_user :=
           Some (<["image" := get token "picture"]>
                   (<["name" := get token "name"]>
                      (<["email" := get token "email"]>
                         (<["id" := get token "id"]> user))));
         expires := expires session |}
  | _, _ => session
  end.

(** ** The policy object *)

Record SessionOptions : Type := {
  strategy : string;
  maxAge : Z;
}.

Record Pages : Type := {
  signIn : string;
  error : string;
}.

Inductive Provider : Type :=
| Google (clientId clientSecret : option string)
         (authorization_params : list (string * string))
| CredentialsProvider (provider_name : string)
                      (authorize_fn : option Credentials -> Async User).

Record NextAuthConfig : Type := {
  trustHost : bool;
  session_options : SessionOptions;
  pages : Pages;
  providers : list Provider;
  jwt_callback : gmap string JsValue -> option User -> gmap string JsValue;
  session_callback : Session -> option (gmap string JsValue) -> Session;
  debug : bool;
}.

(** [authConfig], built from [process.env] and the validated [env]. *)
Definition authConfig (process_env : gmap string string) (env : Env)
  : NextAuthConfig :=
  {| trustHost := AUTH_TRUST_HOST env;
     session_options := {| strategy := "jwt"; maxAge := 30 * 24 * 60 * 60 |};
     pages := {| signIn := "/login"; error := "/login" |};
     providers :=
       [ Google (process_env !! "GOOGLE_CLIENT_ID")
                (process_env !! "GOOGLE_CLIENT_SECRET")
                [("prompt", "consent"); ("access_type", "offline");
                 ("response_type", "code")];
         CredentialsProvider "credentials" authorize ];
     jwt_callback := jwt;
     session_callback := session;
     debug := bool_decide (process_env !! "NODE_ENV" = Some "development") |}.

(** Loading the module: [env.ts] is evaluated first, and [authConfig]
    exists only when [validateEnv] returned. *)
Definition load (isURL : string -> bool) (process_env : gmap string string)
  : Outcome NextAuthConfig :=
  match snd (validateEnv isURL process_env) with
  | Returns env => Returns (authConfig process_env env)
  | Throws msg => Throws msg
  end.

End AuthConfig.

(* ===================================================================== *)
(** * Vocabulary of the properties *)
(* ===================================================================== *)

Import EnvConfig AuthConfig.

(** How a numeric variable is read: the default when it is not set, the
    finite value of [Number(s)] when it is set to [s]. *)
Definition number_reads (d : Q) (input : option string) (q : Q) : Prop :=
  match input with
  | None => q = d
  | Some s => JsNumber.Number s = JsNumber.Finite q
  end.

(** A numeric variable that is set lies within its bounds. *)
Definition number_within (lo hi : Z) (input : option string) (q : Q) : Prop :=
  match input with
  | None => True
  | Some _ => (inject_Z lo <= q)%Q /\ (q <= inject_Z hi)%Q
  end.

(** What the parsed object holds, variable by variable, in terms of the
    input. *)
Record reads (input : gmap string string) (e : Env) : Prop := {
  reads_NODE_ENV :
    NODE_ENV e = default "development" (input !! "NODE_ENV");
  reads_NEXTAUTH_SECRET :
    NEXTAUTH_SECRET e = default "dev-secret" (input !! "NEXTAUTH_SECRET");
  reads_NEXTAUTH_URL : NEXTAUTH_URL e = input !! "NEXTAUTH_URL";
  reads_AUTH_TRUST_HOST :
    AUTH_TRUST_HOST e = isTrue (default "false" (input !! "AUTH_TRUST_HOST"));
  reads_GOOGLE_CLIENT_ID : GOOGLE_CLIENT_ID e = input !! "GOOGLE_CLIENT_ID";
  reads_GOOGLE_CLIENT_SECRET :
    GOOGLE_CLIENT_SECRET e = input !! "GOOGLE_CLIENT_SECRET";
  reads_RATE_LIMIT_ENABLED :
    RATE_LIMIT_ENABLED e = isTrue (default "true" (input !! "RATE_LIMIT_ENABLED"));
  reads_RATE_LIMIT_MAX_REQUESTS :
    number_reads (JsNumber.lit 100) (input !! "RATE_LIMIT_MAX_REQUESTS")
      (RATE_LIMIT_MAX_REQUESTS e);
  reads_RATE_LIMIT_WINDOW_SECONDS :
    number_reads (JsNumber.lit 60) (input !! "RATE_LIMIT_WINDOW_SECONDS")
      (RATE_LIMIT_WINDOW_SECONDS e);
  reads_ANALYTICS_ENABLED :
    ANALYTICS_ENABLED e = isTrue (default "true" (input !! "ANALYTICS_ENABLED"));
  reads_ANALYTICS_SINK :
    ANALYTICS_SINK e = default "log" (input !! "ANALYTICS_SINK");
  reads_LOG_LEVEL : LOG_LEVEL e = default "INFO" (input !! "LOG_LEVEL");
  reads_LOG_FORMAT : LOG_FORMAT e = default "json" (input !! "LOG_FORMAT");
  reads_LOG_INCLUDE_TIMESTAMP :
    LOG_INCLUDE_TIMESTAMP e
    = isTrue (default "true" (input !! "LOG_INCLUDE_TIMESTAMP"));
  reads_DATABASE_QUERY_TIMEOUT :
    number_reads (JsNumber.lit 5000) (input !! "DATABASE_QUERY_TIMEOUT")
      (DATABASE_QUERY_TIMEOUT e);
  reads_CACHE_DEFAULT_TTL :
    number_reads (JsNumber.lit 3600) (input !! "CACHE_DEFAULT_TTL")
      (CACHE_DEFAULT_TTL e);
  reads_ENABLE_PERFORMANCE_MONITORING :
    ENABLE_PERFORMANCE_MONITORING e
    = isTrue (default "true" (input !! "ENABLE_PERFORMANCE_MONITORING"));
  reads_SLOW_QUERY_THRESHOLD_MS :
    number_reads (JsNumber.lit 1000) (input !! "SLOW_QUERY_THRESHOLD_MS")
      (SLOW_QUERY_THRESHOLD_MS e);
}.

(** What an object without issues guarantees beyond its value. *)
Record within_bounds (input : gmap string string) (e : Env) : Prop := {
  within_GOOGLE_CLIENT_ID : input !! "GOOGLE_CLIENT_ID" <> Some "";
  within_GOOGLE_CLIENT_SECRET : input !! "GOOGLE_CLIENT_SECRET" <> Some "";
  within_RATE_LIMIT_MAX_REQUESTS :
    number_within 1 10000 (input !! "RATE_LIMIT_MAX_REQUESTS")
      (RATE_LIMIT_MAX_REQUESTS e);
  within_RATE_LIMIT_WINDOW_SECONDS :
    number_within 1 3600 (input !! "RATE_LIMIT_WINDOW_SECONDS")
      (RATE_LIMIT_WINDOW_SECONDS e);
  within_DATABASE_QUERY_TIMEOUT :
    number_within 1000 30000 (input !! "DATABASE_QUERY_TIMEOUT")
      (DATABASE_QUERY_TIMEOUT e);
  within_CACHE_DEFAULT_TTL :
    number_within 1 86400 (input !! "CACHE_DEFAULT_TTL") (CACHE_DEFAULT_TTL e);
  within_SLOW_QUERY_THRESHOLD_MS :
    number_within 100 10000 (input !! "SLOW_QUERY_THRESHOLD_MS")
      (SLOW_QUERY_THRESHOLD_MS e);
}.

(** Validation fails: parsing yields a [ZodError], no record, and
    [validateEnv] throws the validation error. *)
Definition validation_fails (isURL : string -> bool)
    (process_env : gmap string string) : Prop :=
  (exists errors,
      Zod.parse (envSchema isURL process_env) = Zod.ZodError errors) /\
  snd (validateEnv isURL process_env) = Throws validation_message.

(** The production guard fires: [validateEnv] throws the guard's error. *)
Definition guard_fires (isURL : string -> bool)
    (process_env : gmap string string) : Prop :=
  snd (validateEnv isURL process_env) = Throws guard_message.

(** A number below, or above, an integer bound. *)
Definition below (k : Z) (x : JsNumber.number) : Prop :=
  match x with
  | JsNumber.Finite q => (q < inject_Z k)%Q
  | JsNumber.Infinity negative => negative = true
  | JsNumber.NaN => False
  end.

Definition above (k : Z) (x : JsNumber.number) : Prop :=
  match x with
  | JsNumber.Finite q => (inject_Z k < q)%Q
  | JsNumber.Infinity negative => negative = false
  | JsNumber.NaN => False
  end.

(** A submitted field that is absent or empty. *)
Definition absent_or_empty (v : option string) : Prop :=
  v = None \/ v = Some "".

(* ===================================================================== *)
(** * The schema read as a table *)
(* ===================================================================== *)

(** The variables with an enumeration, and the strings each accepts. *)
Definition enumerated_variables : list (string * list string) :=
  [ ("NODE_ENV", ["development"; "production"; "test"]);
    ("AUTH_TRUST_HOST", ["true"; "false"]);
    ("RATE_LIMIT_ENABLED", ["true"; "false"]);
    ("ANALYTICS_ENABLED", ["true"; "false"]);
    ("ANALYTICS_SINK", ["log"; "kv"; "d1"; "engine"]);
    ("LOG_LEVEL", ["DEBUG"; "INFO"; "WARN"; "ERROR"]);
    ("LOG_FORMAT", ["json"; "pretty"]);
    ("LOG_INCLUDE_TIMESTAMP", ["true"; "false"]);
    ("ENABLE_PERFORMANCE_MONITORING", ["true"; "false"]) ].

(** The numeric variables, with their inclusive bounds. *)
Definition bounded_variables : list (string * (Z * Z)) :=
  [ ("RATE_LIMIT_MAX_REQUESTS", (1, 10000)%Z);
    ("RATE_LIMIT_WINDOW_SECONDS", (1, 3600)%Z);
    ("DATABASE_QUERY_TIMEOUT", (1000, 30000)%Z);
    ("CACHE_DEFAULT_TTL", (1, 86400)%Z);
    ("SLOW_QUERY_THRESHOLD_MS", (100, 10000)%Z) ].

(** The string variables that [min(1)] guards. *)
Definition nonempty_variables : list string :=
  [ "NEXTAUTH_SECRET"; "GOOGLE_CLIENT_ID"; "GOOGLE_CLIENT_SECRET" ].

(** Every variable that [validateEnv] reads: the keys of the schema and
    the four it reads from [process.env] itself. *)
Definition read_variables : list string :=
  [ "NODE_ENV"; "NEXTAUTH_SECRET"; "NEXTAUTH_URL"; "AUTH_TRUST_HOST";
    "GOOGLE_CLIENT_ID"; "GOOGLE_CLIENT_SECRET"; "RATE_LIMIT_ENABLED";
    "RATE_LIMIT_MAX_REQUESTS"; "RATE_LIMIT_WINDOW_SECONDS";
    "ANALYTICS_ENABLED"; "ANALYTICS_SINK"; "LOG_LEVEL"; "LOG_FORMAT";
    "LOG_INCLUDE_TIMESTAMP"; "DATABASE_QUERY_TIMEOUT"; "CACHE_DEFAULT_TTL";
    "ENABLE_PERFORMANCE_MONITORING"; "SLOW_QUERY_THRESHOLD_MS";
    "CF_PAGES"; "VERCEL"; "CI"; "NEXT_PHASE" ].

(** A variable is acceptable when it is not set, or set to a string that
    its schema takes. *)
Definition enum_ok (options : list string) (v : option string) : bool :=
  match v with
  | None => true
  | Some s => existsb (String.eqb s) options
  end.

Definition nonempty_ok (v : option string) : bool :=
  match v with
  | None => true
  | Some s => negb (String.eqb s "")
  end.

Definition url_ok (isURL : string -> bool) (v : option string) : bool :=
  match v with
  | None => true
  | Some s => isURL s
  end.

Definition number_ok (bounds : Z * Z) (v : option string) : bool :=
  match v with
  | None => true
  | Some s =>
      match JsNumber.Number s with
      | JsNumber.Finite q =>
          Qle_bool (inject_Z (fst bounds)) q && Qle_bool q (inject_Z (snd bounds))
      | _ => false
      end
  end.

(** Every variable is acceptable on its own. *)
Definition fields_ok (isURL : string -> bool) (input : gmap string string)
  : bool :=
  forallb (fun kv => enum_ok (snd kv) (input !! fst kv)) enumerated_variables
  && forallb (fun kv => number_ok (snd kv) (input !! fst kv)) bounded_variables
  && forallb (fun k => nonempty_ok (input !! k)) nonempty_variables
  && url_ok isURL (input !! "NEXTAUTH_URL").

(** The configuration is acceptable: every variable is, and the OAuth
    client identifier and secret come together. *)
Definition accepts (isURL : string -> bool) (input : gmap string string)
  : bool :=
  fields_ok isURL input
  && Bool.eqb (truthy (input !! "GOOGLE_CLIENT_ID"))
              (truthy (input !! "GOOGLE_CLIENT_SECRET")).

(** The value of a numeric variable: the default when it is not set. *)
Definition number_or (d : Q) (v : option string) : Q :=
  match v with
  | Some s =>
      match JsNumber.Number s with
      | JsNumber.Finite q => q
      | _ => d
      end
  | None => d
  end.

(** The record that an acceptable configuration denotes. *)
Definition record_of (input : gmap string string) : Env :=
  {| NODE_ENV := default "development" (input !! "NODE_ENV");
     NEXTAUTH_SECRET := default "dev-secret" (input !! "NEXTAUTH_SECRET");
     NEXTAUTH_URL := input !! "NEXTAUTH_URL";
     AUTH_TRUST_HOST := isTrue (default "false" (input !! "AUTH_TRUST_HOST"));
     GOOGLE_CLIENT_ID := input !! "GOOGLE_CLIENT_ID";
     GOOGLE_CLIENT_SECRET := input !! "GOOGLE_CLIENT_SECRET";
     RATE_LIMIT_ENABLED :=
       isTrue (default "true" (input !! "RATE_LIMIT_ENABLED"));
     RATE_LIMIT_MAX_REQUESTS :=
       number_or (inject_Z 100) (input !! "RATE_LIMIT_MAX_REQUESTS");
     RATE_LIMIT_WINDOW_SECONDS :=
       number_or (inject_Z 60) (input !! "RATE_LIMIT_WINDOW_SECONDS");
     ANALYTICS_ENABLED :=
       isTrue (default "true" (input !! "ANALYTICS_ENABLED"));
     ANALYTICS_SINK := default "log" (input !! "ANALYTICS_SINK");
     LOG_LEVEL := default "INFO" (input !! "LOG_LEVEL");
     LOG_FORMAT := default "json" (input !! "LOG_FORMAT");
     LOG_INCLUDE_TIMESTAMP :=
       isTrue (default "true" (input !! "LOG_INCLUDE_TIMESTAMP"));
     DATABASE_QUERY_TIMEOUT :=
       number_or (inject_Z 5000) (input !! "DATABASE_QUERY_TIMEOUT");
     CACHE_DEFAULT_TTL :=
       number_or (inject_Z 3600) (input !! "CACHE_DEFAULT_TTL");
     ENABLE_PERFORMANCE_MONITORING :=
       isTrue (default "true" (input !! "ENABLE_PERFORMANCE_MONITORING"));
     SLOW_QUERY_THRESHOLD_MS :=
       number_or (inject_Z 1000) (input !! "SLOW_QUERY_THRESHOLD_MS") |}.

(** The condition of the production guard, on the configuration. *)
Definition guard_condition (process_env : gmap string string) : Prop :=
  default "dev-secret" (process_env !! "NEXTAUTH_SECRET") = "dev-secret" /\
  process_env !! "NODE_ENV" = Some "production" /\
  process_env !! "CI" <> Some "true" /\
  process_env !! "NEXT_PHASE" <> Some "phase-production-build".

(** A number between two integer bounds, inclusive. *)
Definition between (lo hi : Z) (q : Q) : Prop :=
  (inject_Z lo <= q)%Q /\ (q <= inject_Z hi)%Q.

(** The ranges that the schema enforces, on a record. *)
Record in_range (isURL : string -> bool) (e : Env) : Prop := {
  range_NODE_ENV : NODE_ENV e ∈ ["development"; "production"; "test"];
  range_NEXTAUTH_SECRET : NEXTAUTH_SECRET e <> "";
  range_NEXTAUTH_URL : forall u, NEXTAUTH_URL e = Some u -> isURL u = true;
  range_GOOGLE_CLIENT :
    (GOOGLE_CLIENT_ID e = None /\ GOOGLE_CLIENT_SECRET e = None) \/
    (exists cid csec,
        GOOGLE_CLIENT_ID e = Some cid /\ GOOGLE_CLIENT_SECRET e = Some csec /\
        cid <> "" /\ csec <> "");
  range_RATE_LIMIT_MAX_REQUESTS : between 1 10000 (RATE_LIMIT_MAX_REQUESTS e);
  range_RATE_LIMIT_WINDOW_SECONDS :
    between 1 3600 (RATE_LIMIT_WINDOW_SECONDS e);
  range_ANALYTICS_SINK : ANALYTICS_SINK e ∈ ["log"; "kv"; "d1"; "engine"];
  range_LOG_LEVEL : LOG_LEVEL e ∈ ["DEBUG"; "INFO"; "WARN"; "ERROR"];
  range_LOG_FORMAT : LOG_FORMAT e ∈ ["json"; "pretty"];
  range_DATABASE_QUERY_TIMEOUT :
    between 1000 30000 (DATABASE_QUERY_TIMEOUT e);
  range_CACHE_DEFAULT_TTL : between 1 86400 (CACHE_DEFAULT_TTL e);
  range_SLOW_QUERY_THRESHOLD_MS :
    between 100 10000 (SLOW_QUERY_THRESHOLD_MS e);
}.

(** The lines that [validateEnv] writes around the issues of a rejected
    configuration. *)
Definition failure_header : list ConsoleLine :=
  [Line "Environment variable validation failed:";
   Line "-----------------------------------"].

Definition failure_footer : list ConsoleLine :=
  [Line "-----------------------------------";
   Line "Please check environment variable configuration in .env.local or wrangler.toml"].

(* ===================================================================== *)
(** * Concrete configurations, accounts and collaborators *)
(* ===================================================================== *)

(** A stand-in for the URL parser: it accepts the strings that start with
    [http://] or [https://]. *)
Definition sample_isURL (s : string) : bool :=
  String.prefix "http://" s || String.prefix "https://" s.

(** The example of the specification: production mode with the
    placeholder secret and no CI flag. *)
Definition production_placeholder_env : gmap string string :=
  <["NODE_ENV" := "production"]> {["NEXTAUTH_SECRET" := "dev-secret"]}.

(** The same configuration during a CI build. *)
Definition ci_build_env : gmap string string :=
  <["CI" := "true"]> production_placeholder_env.

(** A client identifier without its secret, and the pair. *)
Definition client_id_only_env : gmap string string :=
  {["GOOGLE_CLIENT_ID" := "client-id.apps.example.com"]}.

Definition client_pair_env : gmap string string :=
  <["GOOGLE_CLIENT_SECRET" := "client-secret"]> client_id_only_env.

(** A configuration that only sets the log level, and its parsed record;
    [all_defaults] is the record of the empty configuration. *)
Definition log_level_only_env : gmap string string :=
  {["LOG_LEVEL" := "DEBUG"]}.

Definition all_defaults : Env :=
  {| NODE_ENV := "development"; NEXTAUTH_SECRET := "dev-secret";
     NEXTAUTH_URL := None; AUTH_TRUST_HOST := false;
     GOOGLE_CLIENT_ID := None; GOOGLE_CLIENT_SECRET := None;
     RATE_LIMIT_ENABLED := true; RATE_LIMIT_MAX_REQUESTS := inject_Z 100;
     RATE_LIMIT_WINDOW_SECONDS := inject_Z 60; ANALYTICS_ENABLED := true;
     ANALYTICS_SINK := "log"; LOG_LEVEL := "INFO"; LOG_FORMAT := "json";
     LOG_INCLUDE_TIMESTAMP := true; DATABASE_QUERY_TIMEOUT := inject_Z 5000;
     CACHE_DEFAULT_TTL := inject_Z 3600; ENABLE_PERFORMANCE_MONITORING := true;
     SLOW_QUERY_THRESHOLD_MS := inject_Z 1000 |}.

Definition log_level_only_parsed : Env :=
  {| NODE_ENV := "development"; NEXTAUTH_SECRET := "dev-secret";
     NEXTAUTH_URL := None; AUTH_TRUST_HOST := false;
     GOOGLE_CLIENT_ID := None; GOOGLE_CLIENT_SECRET := None;
     RATE_LIMIT_ENABLED := true; RATE_LIMIT_MAX_REQUESTS := inject_Z 100;
     RATE_LIMIT_WINDOW_SECONDS := inject_Z 60; ANALYTICS_ENABLED := true;
     ANALYTICS_SINK := "log"; LOG_LEVEL := "DEBUG"; LOG_FORMAT := "json";
     LOG_INCLUDE_TIMESTAMP := true; DATABASE_QUERY_TIMEOUT := inject_Z 5000;
     CACHE_DEFAULT_TTL := inject_Z 3600; ENABLE_PERFORMANCE_MONITORING := true;
     SLOW_QUERY_THRESHOLD_MS := inject_Z 1000 |}.

(** A user table with one account; the verifier compares a salted
    rendering of the password with the stored hash. *)
Definition ann : UserRow :=
  {| row_id := 7; row_email := "ann@example.com"; row_name := Some "Ann";
     row_image := None; row_password := Some "salt:correct horse" |}.

Definition one_account : Collaborators :=
  {| findUnique := fun addr =>
       if String.eqb addr "ann@example.com" then Some ann else None;
     verify := fun pw hash => String.eqb ("salt:" ++ pw) hash |}.

(** The same table when the account's password is the empty string. *)
Definition ann_no_password : UserRow :=
  {| row_id := 7; row_email := "ann@example.com"; row_name := Some "Ann";
     row_image := None; row_password := Some "salt:" |}.

Definition no_password_account : Collaborators :=
  {| findUnique := fun addr =>
       if String.eqb addr "ann@example.com" then Some ann_no_password
       else None;
     verify := fun pw hash => String.eqb ("salt:" ++ pw) hash |}.

(** A configuration that sets the run mode to development. *)
Definition development_env : gmap string string :=
  {["NODE_ENV" := "development"]}.

(** A deployment on a hosting platform that sets VERCEL, and the same
    with the host-trust flag switched off by hand. *)
Definition vercel_env : gmap string string := {["VERCEL" := "1"]}.

Definition vercel_untrusted_env : gmap string string :=
  <["AUTH_TRUST_HOST" := "false"]> vercel_env.

(** A production configuration with a secret of its own. *)
Definition production_env : gmap string string :=
  <["NODE_ENV" := "production"]>
    {["NEXTAUTH_SECRET" := "b3f1c2d4e5a60718293a4b5c6d7e8f90"]}.

(** The same production configuration with an unrelated variable. *)
Definition production_env_with_path : gmap string string :=
  <["PATH" := "/usr/local/bin:/usr/bin"]> production_env.

(** Configurations with one variable that its schema turns away. *)
Definition lowercase_log_level_env : gmap string string :=
  {["LOG_LEVEL" := "info"]}.

Definition cache_ttl_not_a_number_env : gmap string string :=
  {["CACHE_DEFAULT_TTL" := "one hour"]}.

Definition empty_secret_env : gmap string string :=
  {["NEXTAUTH_SECRET" := ""]}.

Definition relative_url_env : gmap string string :=
  {["NEXTAUTH_URL" := "/api/auth"]}.

(** The user that [authorize] returns for the account of [ann], a token
    that only holds a subject, and a session whose user projection holds
    a stale name and a role. *)
Definition ann_user : User :=
  {| id := Str "7"; email := Str "ann@example.com"; name := Str "Ann";
     image := null |}.

Definition subject_token : gmap string JsValue := {["sub" := Str "7"]}.

Definition stale_session : Session :=
  {| session_user := Some (<["name" := Str "Bob"]> {["role" := Str "admin"]});
     expires := "2026-12-03T00:00:00.000Z" |}.

(* ===================================================================== *)
(** * [Number] on sample strings *)
(* ===================================================================== *)

Example Number_integer : JsNumber.Number "100" = JsNumber.Finite (inject_Z 100).
Proof. vm_compute. reflexivity. Qed.

Example Number_trimmed :
  JsNumber.Number "  42 " = JsNumber.Finite (inject_Z 42).
Proof. vm_compute. reflexivity. Qed.

Example Number_empty : JsNumber.Number "" = JsNumber.Finite (inject_Z 0).
Proof. vm_compute. reflexivity. Qed.

Example Number_fraction : JsNumber.Number "-5.5" = JsNumber.Finite (-11 # 2).
Proof. vm_compute. reflexivity. Qed.

Example Number_exponent :
  JsNumber.Number "1e3" = JsNumber.Finite (inject_Z 1000).
Proof. vm_compute. reflexivity. Qed.

Example Number_hex : JsNumber.Number "0x1F" = JsNumber.Finite (inject_Z 31).
Proof. vm_compute. reflexivity. Qed.

Example Number_word : JsNumber.Number "abc" = JsNumber.NaN.
Proof. vm_compute. reflexivity. Qed.

Example Number_dangling_exponent : JsNumber.Number "1e" = JsNumber.NaN.
Proof. vm_compute. reflexivity. Qed.

Example Number_overflow : JsNumber.Number "1e400" = JsNumber.Infinity false.
Proof. vm_compute. reflexivity. Qed.

(** Rounding to binary64: one tenth is not exact, 2^53 + 1 is a tie that
    goes to the even neighbour, and a decimal numeral just under one
    rounds to one. *)
Example Number_tenth :
  JsNumber.Number "0.1"
  = JsNumber.Finite (3602879701896397 # 36028797018963968).
Proof. vm_compute. reflexivity. Qed.

Example Number_tie :
  JsNumber.Number "9007199254740993"
  = JsNumber.Finite (inject_Z 9007199254740992).
Proof. vm_compute. reflexivity. Qed.

Example Number_just_under_one :
  JsNumber.Number "0.99999999999999999999" = JsNumber.Finite (inject_Z 1).
Proof. vm_compute. reflexivity. Qed.

(* ===================================================================== *)
(** * Facts about the schema combinators *)
(* ===================================================================== *)

Section ZodFacts.

Lemma parse_Success {A} (p : Zod.Payload A) (v : A) :
  Zod.parse p = Zod.Success v <-> Zod.value p = Some v /\ Zod.issues p = [].
Proof.
  unfold Zod.parse. destruct p as [[a|] [|i l]]; simpl; split;
    try (intros [? ?]); try congruence; intros; split; congruence.
Qed.

(** A successful parse and a [ZodError] exclude each other, and one of
    them always happens. *)
Lemma parse_cases {A} (p : Zod.Payload A) :
  (exists v, Zod.parse p = Zod.Success v) \/
  (exists errors, Zod.parse p = Zod.ZodError errors).
Proof.
  destruct (Zod.parse p) as [v|errors]; [left|right]; eauto.
Qed.

Lemma ap_value {A B} (pf : Zod.Payload (A -> B)) (pa : Zod.Payload A) b :
  Zod.value (Zod.ap pf pa) = Some b ->
  exists f a, Zod.value pf = Some f /\ Zod.value pa = Some a /\ b = f a.
Proof.
  simpl. destruct (Zod.value pf) as [f|], (Zod.value pa) as [a|];
    intros [= <-] || discriminate. eauto.
Qed.

Lemma ap_issues_nil {A B} (pf : Zod.Payload (A -> B)) (pa : Zod.Payload A) :
  Zod.issues (Zod.ap pf pa) = [] ->
  Zod.issues pf = [] /\ Zod.issues pa = [].
Proof. simpl. apply app_nil. Qed.

Lemma property_value {A} key (s : Zod.Schema A) input :
  Zod.value (Zod.property key s input) = Zod.value (s (input !! key)).
Proof. reflexivity. Qed.

Lemma property_issues_nil {A} key (s : Zod.Schema A) input :
  Zod.issues (Zod.property key s input) = [] ->
  Zod.issues (s (input !! key)) = [].
Proof.
  simpl. unfold Zod.prefixIssues. destruct (Zod.issues _); [done|discriminate].
Qed.

(** A check that ran on a payload without issues leaves the value alone and
    contributes exactly its own issues. *)
Lemma check_issues_nil {A} (chk : A -> list Zod.ZodIssue) (p : Zod.Payload A) :
  Zod.issues (Zod.check chk p) = [] ->
  Zod.issues p = [] /\ forall v, Zod.value p = Some v -> chk v = [].
Proof.
  unfold Zod.check. destruct (Zod.aborted p) eqn:Hab.
  - intros Hp. unfold Zod.aborted in Hab. rewrite Hp in Hab. discriminate.
  - destruct (Zod.value p) as [v|] eqn:Hv; simpl.
    + intros [? ?]%app_nil. split; [done|]. by intros ? [= <-].
    + intros ->. split; [done|]. discriminate.
Qed.

Lemma check_value {A} (chk : A -> list Zod.ZodIssue) (p : Zod.Payload A) :
  Zod.value (Zod.check chk p) = Zod.value p.
Proof.
  unfold Zod.check. destruct (Zod.aborted p); [done|].
  by destruct (Zod.value p) eqn:Hv.
Qed.

End ZodFacts.

(* ===================================================================== *)
(** * Facts about [envSchema] *)
(* ===================================================================== *)

Section FieldFacts.

Variable isURL : string -> bool.

Lemma enum_default_value d options input v :
  Zod.value (Zod.default d (Zod.enum options) input) = Some v ->
  v = default d input.
Proof.
  unfold Zod.default, Zod.enum. destruct input as [s|]; simpl.
  - destruct (existsb _ _); simpl; congruence.
  - congruence.
Qed.

Lemma flag_value d input b :
  Zod.value (Zod.transform isTrue
               (Zod.default d (Zod.enum ["true"; "false"])) input) = Some b ->
  b = isTrue (default d input).
Proof.
  unfold Zod.transform, Zod.default, Zod.enum. destruct input as [s|]; simpl.
  - destruct (_ || _); simpl; congruence.
  - congruence.
Qed.

Lemma string_default_value d n msg input v :
  Zod.value (Zod.default d (Zod.min_length n msg Zod.string_) input) = Some v ->
  v = default d input.
Proof.
  unfold Zod.default, Zod.min_length. destruct input as [s|].
  - rewrite check_value. simpl. congruence.
  - simpl. congruence.
Qed.

Lemma optional_min_length_value n msg input v :
  Zod.value (Zod.optional (Zod.min_length n msg Zod.string_) input) = Some v ->
  v = input.
Proof.
  unfold Zod.optional, Zod.min_length. destruct input as [s|].
  - cbn [Zod.value]. rewrite check_value. simpl. congruence.
  - simpl. congruence.
Qed.

Lemma optional_url_value input v :
  Zod.value (Zod.optional (Zod.url isURL Zod.string_) input) = Some v ->
  v = input.
Proof.
  unfold Zod.optional, Zod.url. destruct input as [s|].
  - cbn [Zod.value]. rewrite check_value. simpl. congruence.
  - simpl. congruence.
Qed.

(** A set but empty string fails [min(1)]. *)
Lemma optional_min_length_issues msg input :
  Zod.issues (Zod.optional (Zod.min_length 1 msg Zod.string_) input) = [] ->
  input <> Some "".
Proof.
  intros H ->. vm_compute in H. discriminate.
Qed.

Lemma number_value d lo hi input q :
  Zod.value (Zod.default d (Zod.max hi (Zod.min lo Zod.coerce_number)) input)
  = Some q ->
  number_reads d input q.
Proof.
  unfold Zod.default, Zod.max, Zod.min, Zod.coerce_number, number_reads.
  destruct input as [s|].
  - rewrite !check_value. destruct (JsNumber.Number s); simpl; congruence.
  - simpl. congruence.
Qed.

Lemma number_issues d lo hi input q :
  Zod.value (Zod.default d (Zod.max hi (Zod.min lo Zod.coerce_number)) input)
  = Some q ->
  Zod.issues (Zod.default d (Zod.max hi (Zod.min lo Zod.coerce_number)) input)
  = [] ->
  number_within lo hi input q.
Proof.
  unfold Zod.default, Zod.max, Zod.min, number_within.
  destruct input as [s|]; [|done].
  rewrite !check_value. intros Hv Hi.
  apply check_issues_nil in Hi as [Hi Hhi].
  apply check_issues_nil in Hi as [_ Hlo].
  rewrite check_value in Hhi.
  specialize (Hhi _ Hv). specialize (Hlo _ Hv).
  unfold JsNumber.leb, JsNumber.lit in *. split.
  - destruct (Qle_bool (inject_Z lo) q) eqn:E; [|discriminate].
    by apply Qle_bool_iff.
  - destruct (Qle_bool q (inject_Z hi)) eqn:E; [|discriminate].
    by apply Qle_bool_iff.
Qed.

(** The value of the object, read off the input. *)
Lemma envObject_value input e :
  Zod.value (envObject isURL input) = Some e -> reads input e.
Proof.
  unfold envObject. intros H.
  repeat (apply ap_value in H as (? & ? & H & ? & ->)).
  injection H as <-.
  repeat match goal with
         | H : Zod.value (Zod.property _ _ _) = _ |- _ =>
             rewrite property_value in H
         end.
  constructor; simpl;
    eauto using enum_default_value, flag_value, string_default_value,
      optional_min_length_value, optional_url_value, number_value.
Qed.

Lemma envObject_issues input e :
  Zod.value (envObject isURL input) = Some e ->
  Zod.issues (envObject isURL input) = [] ->
  within_bounds input e.
Proof.
  unfold envObject. intros H Hi.
  repeat (apply ap_issues_nil in Hi as [Hi ?%property_issues_nil]).
  repeat (apply ap_value in H as (? & ? & H & ? & ->)).
  injection H as <-.
  repeat match goal with
         | H : Zod.value (Zod.property _ _ _) = _ |- _ =>
             rewrite property_value in H
         end.
  constructor; simpl;
    eauto using optional_min_length_issues, number_issues.
Qed.

(** A successful parse of [envSchema], taken apart. *)
Lemma envSchema_Success input e :
  Zod.parse (envSchema isURL input) = Zod.Success e ->
  Zod.value (envObject isURL input) = Some e /\
  Zod.issues (envObject isURL input) = [] /\
  refine_oauth_pair e = [].
Proof.
  intros [Hv Hi]%parse_Success. unfold envSchema, Zod.superRefine in *.
  rewrite check_value in Hv. apply check_issues_nil in Hi as [Hi Hr].
  auto.
Qed.

End FieldFacts.

(* ===================================================================== *)
(** * Facts about [validateEnv] *)
(* ===================================================================== *)

Section ValidateEnvFacts.

Variable isURL : string -> bool.

Lemma validateEnv_ZodError process_env errors :
  Zod.parse (envSchema isURL process_env) = Zod.ZodError errors ->
  snd (validateEnv isURL process_env) = Throws validation_message.
Proof. unfold validateEnv. by intros ->. Qed.

Lemma not_Success_fails process_env :
  (forall e, Zod.parse (envSchema isURL process_env) <> Zod.Success e) ->
  validation_fails isURL process_env.
Proof.
  intros H. destruct (parse_cases (envSchema isURL process_env))
    as [[e He]|[errors He]].
  - by destruct (H e).
  - split; eauto using validateEnv_ZodError.
Qed.

(** [validateEnv] after a successful parse: the guard decides, and the
    record returned is the parsed one, up to the host-trust override. *)
Lemma validateEnv_Success process_env parsed :
  Zod.parse (envSchema isURL process_env) = Zod.Success parsed ->
  let guard :=
    String.eqb (NEXTAUTH_SECRET parsed) "dev-secret"
    && String.eqb (NODE_ENV parsed) "production"
    && negb (bool_decide (process_env !! "CI" = Some "true"))
    && negb (bool_decide
               (process_env !! "NEXT_PHASE" = Some "phase-production-build")) in
  (guard = true -> snd (validateEnv isURL process_env) = Throws guard_message) /\
  (guard = false -> exists e,
      snd (validateEnv isURL process_env) = Returns e /\
      (e = parsed \/ e = set_AUTH_TRUST_HOST true parsed)).
Proof.
  intros Hp guard. unfold validateEnv. rewrite Hp.
  set (parsed' :=
         if (_ : bool) then set_AUTH_TRUST_HOST true parsed else parsed).
  assert (Hcases : parsed' = parsed \/ parsed' = set_AUTH_TRUST_HOST true parsed).
  { subst parsed'.
    match goal with |- context [if ?c then _ else _] => destruct c end; auto. }
  assert (Hs : NEXTAUTH_SECRET parsed' = NEXTAUTH_SECRET parsed)
    by (destruct Hcases as [-> | ->]; reflexivity).
  assert (Hn : NODE_ENV parsed' = NODE_ENV parsed)
    by (destruct Hcases as [-> | ->]; reflexivity).
  cbv zeta. rewrite Hs, Hn.
  split; intros Hg; unfold guard in Hg; rewrite Hg; simpl; eauto.
Qed.

(** Whatever [validateEnv] returns was parsed successfully. *)
Lemma validateEnv_Returns process_env e :
  snd (validateEnv isURL process_env) = Returns e ->
  exists parsed,
    Zod.parse (envSchema isURL process_env) = Zod.Success parsed /\
    (e = parsed \/ e = set_AUTH_TRUST_HOST true parsed).
Proof.
  intros He.
  destruct (parse_cases (envSchema isURL process_env))
    as [[parsed Hp]|[errors Hp]].
  - exists parsed. split; [done|].
    destruct (validateEnv_Success _ _ Hp) as [Ht Hf].
    match type of Ht with ?g = true -> _ => destruct g end.
    + rewrite Ht in He by done. discriminate.
    + destruct Hf as (e' & He' & Hcases); [done|]. congruence.
  - rewrite (validateEnv_ZodError _ _ Hp) in He. discriminate.
Qed.

End ValidateEnvFacts.

(* ===================================================================== *)
(** * Properties of the Environment Validator *)
(* ===================================================================== *)

Section EnvironmentValidator.

Variable isURL : string -> bool.

(** C1. The production guard. The session secret in effect is the variable
    NEXTAUTH_SECRET, or the placeholder when it is not set. When it equals
    'dev-secret', the run mode is 'production', and neither CI='true' nor
    NEXT_PHASE='phase-production-build' is set, [validateEnv] throws (the
    guard's error when the schema accepts the configuration, the validation
    error otherwise) and returns no record. When one of the three
    conditions does not hold, the guard's error is not thrown. *)
Theorem production_guard (process_env : gmap string string) :
  let placeholder_secret :=
    default "dev-secret" (process_env !! "NEXTAUTH_SECRET") = "dev-secret" in
  let production := process_env !! "NODE_ENV" = Some "production" in
  let ci_or_build :=
    process_env !! "CI" = Some "true" \/
    process_env !! "NEXT_PHASE" = Some "phase-production-build" in
  (placeholder_secret /\ production /\ ~ ci_or_build ->
   (guard_fires isURL process_env \/ validation_fails isURL process_env) /\
   exists message, snd (validateEnv isURL process_env) = Throws message) /\
  (~ (placeholder_secret /\ production /\ ~ ci_or_build) ->
   ~ guard_fires isURL process_env).
Proof.
  intros placeholder_secret production ci_or_build.
  destruct (parse_cases (envSchema isURL process_env))
    as [[parsed Hp]|[errors Hp]].
  - (* the schema accepts: the guard's condition is the three conditions *)
    destruct (envSchema_Success _ _ _ Hp) as (Hv & _ & _).
    apply envObject_value in Hv.
    destruct (validateEnv_Success isURL _ _ Hp) as [Ht Hf].
    rewrite (reads_NODE_ENV _ _ Hv), (reads_NEXTAUTH_SECRET _ _ Hv) in Ht, Hf.
    split.
    + intros (Hs & Hn & Hc).
      unfold placeholder_secret in Hs. unfold production in Hn.
      assert (Hg : guard_fires isURL process_env).
      { apply Ht. rewrite Hs, Hn. simpl.
        rewrite !bool_decide_eq_false_2; [done| |];
          intros ?; apply Hc; [right|left]; done. }
      split; [by left|]. by exists guard_message.
    + intros Hnot Hg. apply Hnot. unfold guard_fires in Hg.
      match type of Ht with ?g = true -> _ => destruct g eqn:Eg end.
      * apply andb_prop in Eg as [Eg Hb]. apply andb_prop in Eg as [Eg Hc].
        apply andb_prop in Eg as [Hs Hn].
        apply String.eqb_eq in Hs. apply String.eqb_eq in Hn.
        apply negb_true_iff, bool_decide_eq_false in Hb, Hc.
        split; [done|]. split.
        -- unfold production. destruct (process_env !! "NODE_ENV"); simpl in Hn;
             [by subst|discriminate].
        -- intros [?|?]; done.
      * destruct Hf as (e & He & _); [done|]. congruence.
  - (* the schema rejects: the validation error is thrown *)
    pose proof (validateEnv_ZodError isURL _ _ Hp) as Hthrow.
    split.
    + intros _. split; [right; split; eauto|]. eauto.
    + intros _ Hg. unfold guard_fires in Hg. rewrite Hthrow in Hg.
      discriminate.
Qed.

(** C9. A rate-limit threshold that parses to a number below 1 or above
    10000 fails validation: parsing yields a [ZodError], not a record, and
    [validateEnv] throws. In particular RATE_LIMIT_MAX_REQUESTS = "0" is
    rejected. *)
Theorem rate_limit_threshold_bounds (process_env : gmap string string) :
  (forall s,
      process_env !! "RATE_LIMIT_MAX_REQUESTS" = Some s ->
      below 1 (JsNumber.Number s) \/ above 10000 (JsNumber.Number s) ->
      validation_fails isURL process_env) /\
  (process_env !! "RATE_LIMIT_MAX_REQUESTS" = Some "0" ->
   validation_fails isURL process_env).
Proof.
  assert (Hgen : forall s,
      process_env !! "RATE_LIMIT_MAX_REQUESTS" = Some s ->
      below 1 (JsNumber.Number s) \/ above 10000 (JsNumber.Number s) ->
      validation_fails isURL process_env).
  { intros s Hs Hout. apply not_Success_fails. intros e He.
    destruct (envSchema_Success _ _ _ He) as (Hv & Hi & _).
    pose proof (envObject_issues _ _ _ Hv Hi) as Hw.
    apply envObject_value in Hv.
    pose proof (reads_RATE_LIMIT_MAX_REQUESTS _ _ Hv) as Hr.
    pose proof (within_RATE_LIMIT_MAX_REQUESTS _ _ Hw) as Hb.
    rewrite Hs in Hr, Hb. simpl in Hr. destruct Hb as [Hlo Hhi].
    rewrite Hr in Hout. simpl in Hout.
    destruct Hout as [Hout|Hout]; eapply Qlt_not_le; eauto. }
  split; [exact Hgen|].
  intros H0. apply (Hgen "0" H0). left. vm_compute. reflexivity.
Qed.

(** C3. The cross-field rule on the OAuth client identifier and secret.
    A variable counts as provided when it is set to a non-empty string,
    which is what the rule tests. When exactly one of GOOGLE_CLIENT_ID and
    GOOGLE_CLIENT_SECRET is provided, or exactly one of them is set at all,
    validation fails. When both are provided, or neither is, the
    refinement adds no issue to those of the object. *)
Theorem oauth_pair_rule (process_env : gmap string string) :
  let client_id := process_env !! "GOOGLE_CLIENT_ID" in
  let client_secret := process_env !! "GOOGLE_CLIENT_SECRET" in
  (truthy client_id <> truthy client_secret ->
   validation_fails isURL process_env) /\
  ((is_Some client_id /\ client_secret = None) \/
   (client_id = None /\ is_Some client_secret) ->
   validation_fails isURL process_env) /\
  (truthy client_id = truthy client_secret ->
   Zod.issues (envSchema isURL process_env)
   = Zod.issues (envObject isURL process_env)).
Proof.
  intros client_id client_secret.
  assert (Hone : truthy client_id <> truthy client_secret ->
                 validation_fails isURL process_env).
  { intros Hne. apply not_Success_fails. intros e He.
    destruct (envSchema_Success _ _ _ He) as (Hv & _ & Hr).
    apply envObject_value in Hv.
    unfold refine_oauth_pair in Hr.
    rewrite (reads_GOOGLE_CLIENT_ID _ _ Hv),
      (reads_GOOGLE_CLIENT_SECRET _ _ Hv) in Hr.
    fold client_id client_secret in Hr.
    destruct (truthy client_id), (truthy client_secret);
      simpl in Hr; congruence. }
  split; [exact Hone|]. split.
  - (* exactly one is set: it is either empty, which [min(1)] rejects, or
       provided while the other is not *)
    intros Hset.
    destruct (decide (truthy client_id = truthy client_secret)) as [Heq|Hne];
      [|by apply Hone].
    apply not_Success_fails. intros e He.
    destruct (envSchema_Success _ _ _ He) as (Hv & Hi & _).
    pose proof (envObject_issues _ _ _ Hv Hi) as Hw.
    pose proof (within_GOOGLE_CLIENT_ID _ _ Hw) as Hid.
    pose proof (within_GOOGLE_CLIENT_SECRET _ _ Hw) as Hsec.
    fold client_id in Hid. fold client_secret in Hsec.
    destruct Hset as [[[s Hs] Hn]|[Hn [s Hs]]];
      rewrite Hs, Hn in Heq; rewrite Hs in *; simpl in Heq;
      destruct (String.eqb_spec s ""); subst; simpl in Heq; congruence.
  - intros Heq. unfold envSchema, Zod.superRefine, Zod.check.
    destruct (Zod.aborted _); [done|].
    destruct (Zod.value (envObject isURL process_env)) as [e|] eqn:Hv; [|done].
    apply envObject_value in Hv. simpl.
    unfold refine_oauth_pair.
    rewrite (reads_GOOGLE_CLIENT_ID _ _ Hv),
      (reads_GOOGLE_CLIENT_SECRET _ _ Hv).
    fold client_id client_secret. rewrite Heq.
    destruct (truthy client_secret); simpl; by rewrite app_nil_r.
Qed.

(** C4. Defaults. When the schema accepts the configuration, every
    defaulted variable that is not set holds its default in the parsed
    record: run mode 'development', session secret 'dev-secret',
    host-trust flag false, rate-limit toggle true, threshold 100 and window
    60, analytics toggle true and backend 'log', log level 'INFO', log
    format 'json', timestamp toggle true, query timeout 5000, cache TTL
    3600, performance-monitoring toggle true, slow-query threshold 1000. *)
Theorem schema_defaults (process_env : gmap string string) (parsed : Env) :
  Zod.parse (envSchema isURL process_env) = Zod.Success parsed ->
  (process_env !! "NODE_ENV" = None -> NODE_ENV parsed = "development") /\
  (process_env !! "NEXTAUTH_SECRET" = None ->
   NEXTAUTH_SECRET parsed = "dev-secret") /\
  (process_env !! "AUTH_TRUST_HOST" = None -> AUTH_TRUST_HOST parsed = false) /\
  (process_env !! "RATE_LIMIT_ENABLED" = None ->
   RATE_LIMIT_ENABLED parsed = true) /\
  (process_env !! "RATE_LIMIT_MAX_REQUESTS" = None ->
   RATE_LIMIT_MAX_REQUESTS parsed = inject_Z 100) /\
  (process_env !! "RATE_LIMIT_WINDOW_SECONDS" = None ->
   RATE_LIMIT_WINDOW_SECONDS parsed = inject_Z 60) /\
  (process_env !! "ANALYTICS_ENABLED" = None ->
   ANALYTICS_ENABLED parsed = true) /\
  (process_env !! "ANALYTICS_SINK" = None -> ANALYTICS_SINK parsed = "log") /\
  (process_env !! "LOG_LEVEL" = None -> LOG_LEVEL parsed = "INFO") /\
  (process_env !! "LOG_FORMAT" = None -> LOG_FORMAT parsed = "json") /\
  (process_env !! "LOG_INCLUDE_TIMESTAMP" = None ->
   LOG_INCLUDE_TIMESTAMP parsed = true) /\
  (process_env !! "DATABASE_QUERY_TIMEOUT" = None ->
   DATABASE_QUERY_TIMEOUT parsed = inject_Z 5000) /\
  (process_env !! "CACHE_DEFAULT_TTL" = None ->
   CACHE_DEFAULT_TTL parsed = inject_Z 3600) /\
  (process_env !! "ENABLE_PERFORMANCE_MONITORING" = None ->
   ENABLE_PERFORMANCE_MONITORING parsed = true) /\
  (process_env !! "SLOW_QUERY_THRESHOLD_MS" = None ->
   SLOW_QUERY_THRESHOLD_MS parsed = inject_Z 1000).
Proof.
  intros Hp. destruct (envSchema_Success _ _ _ Hp) as (Hv & _ & _).
  apply envObject_value in Hv. destruct Hv.
  unfold number_reads in *.
  repeat split; intros Habsent; rewrite Habsent in *; assumption.
Qed.

(** What [validateEnv] returns is read off the input like the parsed
    record, up to the host-trust flag. *)
Lemma validateEnv_Returns_reads (process_env : gmap string string) e :
  snd (validateEnv isURL process_env) = Returns e ->
  exists parsed,
    reads process_env parsed /\
    e = set_AUTH_TRUST_HOST (AUTH_TRUST_HOST e) parsed.
Proof.
  intros He. destruct (validateEnv_Returns _ _ _ He) as (parsed & Hp & Hcases).
  destruct (envSchema_Success _ _ _ Hp) as (Hv & _ & _).
  apply envObject_value in Hv. exists parsed. split; [done|].
  destruct Hcases as [-> | ->]; [by destruct parsed|done].
Qed.

(** The host-trust flag of a configuration that does not set it: true
    under CF_PAGES or VERCEL, false otherwise. *)
Lemma validateEnv_host_trust_default (process_env : gmap string string) e :
  snd (validateEnv isURL process_env) = Returns e ->
  process_env !! "AUTH_TRUST_HOST" = None ->
  AUTH_TRUST_HOST e
  = truthy (process_env !! "CF_PAGES") || truthy (process_env !! "VERCEL").
Proof.
  intros He Habsent.
  destruct (parse_cases (envSchema isURL process_env))
    as [[parsed Hp]|[errors Hp]].
  - destruct (envSchema_Success _ _ _ Hp) as (Hv & _ & _).
    apply envObject_value in Hv.
    pose proof (reads_AUTH_TRUST_HOST _ _ Hv) as Hth.
    rewrite Habsent in Hth. change (AUTH_TRUST_HOST parsed = false) in Hth.
    unfold validateEnv in He. rewrite Hp, Hth, Habsent in He. simpl in He.
    destruct (truthy (process_env !! "CF_PAGES") || truthy (process_env !! "VERCEL"));
      simpl in He;
      match type of He with
      | snd (if ?c then _ else _) = _ => destruct c
      end; simpl in He; try discriminate;
      injection He as <-; done.
  - rewrite (validateEnv_ZodError _ _ _ Hp) in He. discriminate.
Qed.

End EnvironmentValidator.

(* ===================================================================== *)
(** * Properties of the Authentication Configurator *)
(* ===================================================================== *)

Section CredentialsProvider.

Context `{Collaborators}.

(** With a non-empty email and password, [authorize] is one lookup,
    followed by one verification when the row has a non-empty hash. *)
Lemma authorize_submitted (addr pw : string) :
  addr <> "" -> pw <> "" ->
  authorize (Some (mkCredentials (Some addr) (Some pw)))
  = FindUnique addr (fun user =>
      match user with
      | None => Throw invalid_credentials_message
      | Some user =>
          if negb (truthy (row_password user))
          then Throw invalid_credentials_message
          else VerifyPassword pw (default "" (row_password user)) (fun ok =>
                 if negb ok then Throw invalid_credentials_message
                 else Return {| id := Str (toString (row_id user));
                                email := Str (row_email user);
                                name := nullable (row_name user);
                                image := nullable (row_image user) |})
      end).
Proof.
  intros Ha Hp. unfold authorize. simpl.
  apply String.eqb_neq in Ha, Hp. rewrite Ha, Hp. simpl.
  f_equal.
Qed.

(** C2. With a non-empty email and password, the three failures (no row
    for the email; a row without a stored hash, be it null or empty; a row
    with a hash that the verifier rejects) throw the same error, with the
    message 'Invalid email or password'. *)
Theorem invalid_credentials_same_error (addr pw : string) :
  addr <> "" -> pw <> "" ->
  let attempt := authorize (Some (mkCredentials (Some addr) (Some pw))) in
  (findUnique addr = None ->
   snd (run attempt) = Throws "Invalid email or password") /\
  (forall user,
      findUnique addr = Some user ->
      row_password user = None \/ row_password user = Some "" ->
      snd (run attempt) = Throws "Invalid email or password") /\
  (forall user hash,
      findUnique addr = Some user ->
      row_password user = Some hash ->
      verify pw hash = false ->
      snd (run attempt) = Throws "Invalid email or password").
Proof.
  intros Ha Hp attempt. subst attempt. rewrite (authorize_submitted _ _ Ha Hp).
  repeat split.
  - intros Hnone. simpl. rewrite Hnone. reflexivity.
  - intros user Hu Hnohash. simpl. rewrite Hu.
    destruct Hnohash as [-> | ->]; reflexivity.
  - intros user hash Hu Hh Hv. simpl. rewrite Hu, Hh. simpl.
    destruct (String.eqb hash ""); simpl; [reflexivity|].
    rewrite Hv. reflexivity.
Qed.

(** C10. When the email or the password is absent or empty, [authorize]
    throws 'Please provide email and password', which is not the generic
    message, and it is a program without any call: running it makes no
    lookup in the persistence layer. *)
Theorem missing_credentials_no_lookup (credentials : option Credentials) :
  absent_or_empty (credentials ≫= cred_email) \/
  absent_or_empty (credentials ≫= cred_password) ->
  authorize credentials = Throw "Please provide email and password" /\
  run (authorize credentials)
  = ([], Throws "Please provide email and password") /\
  "Please provide email and password" <> invalid_credentials_message.
Proof.
  intros Hmissing.
  assert (Hthrow :
      authorize credentials = Throw "Please provide email and password").
  { unfold authorize.
    destruct Hmissing as [[-> | ->] | [-> | ->]]; simpl;
      rewrite ?orb_true_r; reflexivity. }
  rewrite Hthrow. repeat split. discriminate.
Qed.

(** C5, amended. With a non-empty email and password, when a row with the
    email exists, has a non-empty stored hash, and the verifier accepts the
    password against it, [authorize] returns the projection of the row:
    its id as a decimal string, its email, name and image. *)
Theorem authorize_returns_projection (addr pw : string) (user : UserRow)
    (hash : string) :
  addr <> "" -> pw <> "" ->
  findUnique addr = Some user ->
  row_password user = Some hash -> hash <> "" ->
  verify pw hash = true ->
  run (authorize (Some (mkCredentials (Some addr) (Some pw))))
  = ([CallFindUnique addr; CallVerifyPassword pw hash],
     Returns {| id := Str (toString (row_id user));
                email := Str (row_email user);
                name := nullable (row_name user);
                image := nullable (row_image user) |}).
Proof.
  intros Ha Hp Hu Hh Hne Hv. rewrite (authorize_submitted _ _ Ha Hp).
  simpl. rewrite Hu, Hh. simpl.
  apply String.eqb_neq in Hne. rewrite Hne. simpl. rewrite Hv. reflexivity.
Qed.

End CredentialsProvider.

Section Callbacks.

Implicit Types (token : gmap string JsValue) (user : User).

(** C6. The token callback. With a freshly authenticated user, the
    returned token holds the user's id, email, name and image (the image
    under the key [picture]) and is otherwise the input token; without
    one, the returned token is the input token. *)
Theorem jwt_copies_or_passes token :
  (forall user,
      let token' := jwt token (Some user) in
      token' !! "id" = Some (id user) /\
      token' !! "email" = Some (email user) /\
      token' !! "name" = Some (name user) /\
      token' !! "picture" = Some (image user) /\
      forall key,
        key ∉ ["id"; "email"; "name"; "picture"] ->
        token' !! key = token !! key) /\
  jwt token None = token.
Proof.
  split; [|reflexivity].
  intros user token'. subst token'. unfold jwt.
  repeat split.
  - do 3 (rewrite lookup_insert_ne by done). apply lookup_insert_eq.
  - do 2 (rewrite lookup_insert_ne by done). apply lookup_insert_eq.
  - rewrite lookup_insert_ne by done. apply lookup_insert_eq.
  - apply lookup_insert_eq.
  - intros key Hkey.
    rewrite !lookup_insert_ne; [done|..];
      intros <-; apply Hkey; set_solver.
Qed.

(** C7. The session callback is idempotent: materializing the session
    from the result of a first materialization, with the same token, gives
    the same session, hence the same user projection. *)
Theorem session_idempotent (s : Session)
    (token : option (gmap string JsValue)) :
  session (session s token) token = session s token.
Proof.
  unfold session. destruct token as [token|]; [|reflexivity].
  destruct (session_user s) as [user|] eqn:Hu; simpl; [|by rewrite Hu].
  do 2 f_equal. apply map_eq. intros key.
  rewrite !lookup_insert. repeat case_decide; reflexivity.
Qed.

End Callbacks.

Section PolicyObject.

Variable isURL : string -> bool.

(** C8, amended. In the policy object of a configuration that validates,
    the debug flag is enabled exactly when the variable NODE_ENV is set to
    'development'. When NODE_ENV is set, this is exactly when the
    validated run mode is 'development'; when it is not set, the validated
    run mode is 'development' and the debug flag is disabled. *)
Theorem debug_flag_reads_process_env (process_env : gmap string string)
    (config : NextAuthConfig) :
  load isURL process_env = Returns config ->
  exists env,
    snd (validateEnv isURL process_env) = Returns env /\
    config = authConfig process_env env /\
    (debug config = true <-> process_env !! "NODE_ENV" = Some "development") /\
    (is_Some (process_env !! "NODE_ENV") ->
     (debug config = true <-> NODE_ENV env = "development")) /\
    (process_env !! "NODE_ENV" = None ->
     NODE_ENV env = "development" /\ debug config = false).
Proof.
  unfold load. intros Hload.
  destruct (snd (validateEnv isURL process_env)) as [env|msg] eqn:He;
    [|discriminate].
  injection Hload as <-. exists env. split; [done|]. split; [done|].
  destruct (validateEnv_Returns _ _ _ He) as (parsed & Hp & Hcases).
  destruct (envSchema_Success _ _ _ Hp) as (Hv & _ & _).
  apply envObject_value in Hv. pose proof (reads_NODE_ENV _ _ Hv) as Hn.
  assert (Hmode : NODE_ENV env = default "development" (process_env !! "NODE_ENV"))
    by (destruct Hcases as [-> | ->]; exact Hn).
  simpl. rewrite bool_decide_eq_true. split; [done|]. split.
  - intros [mode Hset]. rewrite Hmode, Hset. simpl.
    split; congruence.
  - intros Habsent. rewrite Hmode, Habsent. split; [done|].
    by apply bool_decide_eq_false.
Qed.

End PolicyObject.

(* ===================================================================== *)
(** * The properties at concrete configurations and attempts *)
(* ===================================================================== *)

(** C1 at the example of the specification, and during a CI build. *)
Lemma production_guard_witness :
  (exists message,
      snd (validateEnv sample_isURL production_placeholder_env)
      = Throws message) /\
  ~ guard_fires sample_isURL ci_build_env.
Proof.
  split.
  - apply (proj1 (production_guard sample_isURL production_placeholder_env)).
    split; [reflexivity|]. split; [reflexivity|].
    intros [Hci|Hphase]; vm_compute in Hci || vm_compute in Hphase;
      discriminate.
  - apply (proj2 (production_guard sample_isURL ci_build_env)).
    intros (_ & _ & Hno). apply Hno. left. reflexivity.
Defined.

(** C9 at a threshold above the maximum and at the threshold 0. *)
Lemma rate_limit_threshold_bounds_witness :
  validation_fails sample_isURL {["RATE_LIMIT_MAX_REQUESTS" := "20000"]} /\
  validation_fails sample_isURL {["RATE_LIMIT_MAX_REQUESTS" := "0"]}.
Proof.
  split.
  - apply (proj1 (rate_limit_threshold_bounds sample_isURL
                    {["RATE_LIMIT_MAX_REQUESTS" := "20000"]}) "20000").
    + reflexivity.
    + right. vm_compute. reflexivity.
  - apply (proj2 (rate_limit_threshold_bounds sample_isURL
                    {["RATE_LIMIT_MAX_REQUESTS" := "0"]})).
    reflexivity.
Defined.

(** C3 at a client identifier without its secret, and at the pair. *)
Lemma oauth_pair_rule_witness :
  validation_fails sample_isURL client_id_only_env /\
  Zod.issues (envSchema sample_isURL client_pair_env)
  = Zod.issues (envObject sample_isURL client_pair_env).
Proof.
  split.
  - apply (proj1 (proj2 (oauth_pair_rule sample_isURL client_id_only_env))).
    left. split; [|reflexivity]. vm_compute. eauto.
  - apply (proj2 (proj2 (oauth_pair_rule sample_isURL client_pair_env))).
    vm_compute. reflexivity.
Defined.

(** An object set with both variables, the secret being empty: [min(1)]
    raises its issue and the refinement raises its own as well. *)
Remark oauth_pair_empty_secret :
  Zod.issues (envSchema sample_isURL
                (<["GOOGLE_CLIENT_SECRET" := ""]> client_id_only_env))
  = [ Zod.mkIssue Zod.too_small ["GOOGLE_CLIENT_SECRET"]
        (Some "GOOGLE_CLIENT_SECRET must be a non-empty string");
      oauth_pair_issue ].
Proof. vm_compute. reflexivity. Qed.

(** C4 at a configuration that only sets the log level. *)
Lemma schema_defaults_witness :
  Zod.parse (envSchema sample_isURL log_level_only_env)
  = Zod.Success log_level_only_parsed /\
  NODE_ENV log_level_only_parsed = "development" /\
  AUTH_TRUST_HOST log_level_only_parsed = false /\
  RATE_LIMIT_MAX_REQUESTS log_level_only_parsed = inject_Z 100.
Proof.
  assert (Hp : Zod.parse (envSchema sample_isURL log_level_only_env)
               = Zod.Success log_level_only_parsed)
    by (vm_compute; reflexivity).
  split; [exact Hp|].
  destruct (schema_defaults sample_isURL _ _ Hp)
    as (Hmode & _ & Htrust & _ & Hmax & _).
  split; [apply Hmode; reflexivity|].
  split; [apply Htrust; reflexivity|apply Hmax; reflexivity].
Defined.

(** C2 at an unknown email and at a wrong password. *)
Lemma invalid_credentials_same_error_witness :
  snd (@run one_account _
         (authorize (Some (mkCredentials (Some "bob@example.com")
                                         (Some "correct horse")))))
  = Throws "Invalid email or password" /\
  snd (@run one_account _
         (authorize (Some (mkCredentials (Some "ann@example.com")
                                         (Some "battery staple")))))
  = Throws "Invalid email or password".
Proof.
  split.
  - apply (proj1 (@invalid_credentials_same_error one_account
                    "bob@example.com" "correct horse"
                    ltac:(discriminate) ltac:(discriminate))).
    reflexivity.
  - apply (proj2 (proj2 (@invalid_credentials_same_error one_account
                           "ann@example.com" "battery staple"
                           ltac:(discriminate) ltac:(discriminate)))
             ann "salt:correct horse"); reflexivity.
Defined.

(** C10 at an empty password. *)
Lemma missing_credentials_no_lookup_witness :
  @run one_account _
    (authorize (Some (mkCredentials (Some "ann@example.com") (Some ""))))
  = ([], Throws "Please provide email and password").
Proof.
  apply (@missing_credentials_no_lookup one_account
           (Some (mkCredentials (Some "ann@example.com") (Some "")))).
  right. right. reflexivity.
Defined.

(** C5, amended, at the right password. *)
Lemma authorize_returns_projection_witness :
  @run one_account _
    (authorize (Some (mkCredentials (Some "ann@example.com")
                                    (Some "correct horse"))))
  = ([CallFindUnique "ann@example.com";
      CallVerifyPassword "correct horse" "salt:correct horse"],
     Returns {| id := Str "7"; email := Str "ann@example.com";
                name := Str "Ann"; image := null |}).
Proof.
  apply (@authorize_returns_projection one_account
           "ann@example.com" "correct horse" ann "salt:correct horse");
    (discriminate || reflexivity).
Defined.

(** C5 as stated fails for an account whose password is the empty string:
    the row exists, has a stored hash, and the verifier accepts the empty
    password against it, and yet [authorize] throws instead of returning
    the projection, because an empty password is turned away before the
    lookup. *)
Lemma authorize_empty_password_rejected :
  let attempt :=
    authorize (Some (mkCredentials (Some "ann@example.com") (Some ""))) in
  @findUnique no_password_account "ann@example.com" = Some ann_no_password /\
  row_password ann_no_password = Some "salt:" /\
  @verify no_password_account "" "salt:" = true /\
  snd (@run no_password_account _ attempt)
  = Throws "Please provide email and password" /\
  snd (@run no_password_account _ attempt)
  <> Returns {| id := Str (toString (row_id ann_no_password));
                email := Str (row_email ann_no_password);
                name := nullable (row_name ann_no_password);
                image := nullable (row_image ann_no_password) |}.
Proof.
  repeat split. discriminate.
Qed.

(** C6 at a token with a subject claim: the claim is kept. *)
Lemma jwt_copies_or_passes_witness :
  jwt {["sub" := Str "7"]}
      (Some {| id := Str "7"; email := Str "ann@example.com";
               name := Str "Ann"; image := null |}) !! "sub"
  = Some (Str "7").
Proof.
  destruct (jwt_copies_or_passes {["sub" := Str "7"]}) as [Hcopy _].
  destruct (Hcopy {| id := Str "7"; email := Str "ann@example.com";
                     name := Str "Ann"; image := null |})
    as (_ & _ & _ & _ & Hframe).
  rewrite (Hframe "sub").
  - reflexivity.
  - intros Hin. repeat (apply elem_of_cons in Hin as [Hin|Hin];
                        [discriminate|]).
    by apply elem_of_nil in Hin.
Defined.

(** C8 as stated fails when no variable is set: validation returns the
    run mode 'development' while the debug flag of the policy object is
    disabled. *)
Lemma debug_flag_absent_run_mode :
  snd (validateEnv sample_isURL ∅) = Returns all_defaults /\
  load sample_isURL ∅ = Returns (authConfig ∅ all_defaults) /\
  NODE_ENV all_defaults = "development" /\
  debug (authConfig ∅ all_defaults) = false /\
  ~ (debug (authConfig ∅ all_defaults) = true
     <-> NODE_ENV all_defaults = "development").
Proof.
  split; [vm_compute; reflexivity|]. split; [vm_compute; reflexivity|].
  split; [reflexivity|]. split; [reflexivity|].
  intros [_ Hmode]. specialize (Hmode eq_refl). vm_compute in Hmode.
  discriminate.
Qed.

(** C8, amended, at a configuration that sets NODE_ENV to development. *)
Lemma debug_flag_reads_process_env_witness :
  exists env,
    snd (validateEnv sample_isURL development_env) = Returns env /\
    debug (authConfig development_env env) = true.
Proof.
  destruct (debug_flag_reads_process_env sample_isURL development_env
              (authConfig development_env all_defaults))
    as (env & He & Hcfg & Hraw & _).
  - vm_compute. reflexivity.
  - exists env. split; [exact He|]. rewrite <- Hcfg. apply Hraw. reflexivity.
Defined.

(* ===================================================================== *)
(** * The schema, variable by variable *)
(* ===================================================================== *)

Section FieldVerdicts.

Variable isURL : string -> bool.

Lemma property_valid {A} key (s : Zod.Schema A) input v :
  s (input !! key) = Zod.valid v -> Zod.property key s input = Zod.valid v.
Proof. unfold Zod.property. by intros ->. Qed.

Lemma enum_default_valid d options input :
  enum_ok options input = true ->
  Zod.default d (Zod.enum options) input = Zod.valid (default d input).
Proof.
  unfold Zod.default, Zod.enum. destruct input as [s|]; simpl; [|done].
  by intros ->.
Qed.

Lemma enum_default_rejects d options input :
  Zod.issues (Zod.default d (Zod.enum options) input) = [] ->
  enum_ok options input = true.
Proof.
  unfold Zod.default, Zod.enum. destruct input as [s|]; simpl; [|done].
  by destruct (existsb _ _).
Qed.

Lemma flag_valid d input :
  enum_ok ["true"; "false"] input = true ->
  Zod.transform isTrue (Zod.default d (Zod.enum ["true"; "false"])) input
  = Zod.valid (isTrue (default d input)).
Proof.
  intros Hok. unfold Zod.transform.
  by rewrite (enum_default_valid _ _ _ Hok).
Qed.

Lemma flag_rejects d input :
  Zod.issues
    (Zod.transform isTrue (Zod.default d (Zod.enum ["true"; "false"])) input)
  = [] ->
  enum_ok ["true"; "false"] input = true.
Proof.
  unfold Zod.transform. intros H. apply (enum_default_rejects d).
  by destruct (Zod.issues (Zod.default d _ input)).
Qed.

Lemma string_default_valid d msg input :
  nonempty_ok input = true ->
  Zod.default d (Zod.min_length 1 msg Zod.string_) input
  = Zod.valid (default d input).
Proof.
  unfold Zod.default, Zod.min_length. destruct input as [s|]; simpl; [|done].
  by destruct s.
Qed.

Lemma string_default_rejects d msg input :
  Zod.issues (Zod.default d (Zod.min_length 1 msg Zod.string_) input) = [] ->
  nonempty_ok input = true.
Proof.
  unfold Zod.default, Zod.min_length. destruct input as [s|]; simpl; [|done].
  by destruct s.
Qed.

Lemma optional_min_length_valid msg input :
  nonempty_ok input = true ->
  Zod.optional (Zod.min_length 1 msg Zod.string_) input = Zod.valid input.
Proof.
  unfold Zod.optional, Zod.min_length. destruct input as [s|]; simpl; [|done].
  by destruct s.
Qed.

Lemma optional_min_length_rejects msg input :
  Zod.issues (Zod.optional (Zod.min_length 1 msg Zod.string_) input) = [] ->
  nonempty_ok input = true.
Proof.
  unfold Zod.optional, Zod.min_length. destruct input as [s|]; simpl; [|done].
  by destruct s.
Qed.

Lemma optional_url_valid input :
  url_ok isURL input = true ->
  Zod.optional (Zod.url isURL Zod.string_) input = Zod.valid input.
Proof.
  unfold Zod.optional, Zod.url. destruct input as [s|]; simpl; [|done].
  unfold Zod.check. simpl. by intros ->.
Qed.

Lemma optional_url_rejects input :
  Zod.issues (Zod.optional (Zod.url isURL Zod.string_) input) = [] ->
  url_ok isURL input = true.
Proof.
  unfold Zod.optional, Zod.url. destruct input as [s|]; simpl; [|done].
  unfold Zod.check. simpl. by destruct (isURL s).
Qed.

Lemma number_valid d lo hi input :
  number_ok (lo, hi) input = true ->
  Zod.default d (Zod.max hi (Zod.min lo Zod.coerce_number)) input
  = Zod.valid (number_or d input).
Proof.
  unfold Zod.default, Zod.max, Zod.min, Zod.coerce_number, number_ok,
    number_or.
  destruct input as [s|]; [|done].
  destruct (JsNumber.Number s) as [| |q]; try discriminate.
  simpl. intros [Hlo Hhi]%andb_prop.
  unfold Zod.check, JsNumber.leb, JsNumber.lit. simpl. rewrite Hlo. simpl.
  by rewrite Hhi.
Qed.

Lemma number_rejects d lo hi input :
  Zod.issues (Zod.default d (Zod.max hi (Zod.min lo Zod.coerce_number)) input)
  = [] ->
  number_ok (lo, hi) input = true.
Proof.
  unfold Zod.default, Zod.max, Zod.min, Zod.coerce_number, number_ok.
  destruct input as [s|]; [|done].
  destruct (JsNumber.Number s) as [| |q]; try discriminate.
  unfold Zod.check, JsNumber.leb, JsNumber.lit. simpl.
  destruct (Qle_bool (inject_Z lo) q); simpl; [|discriminate].
  by destruct (Qle_bool q (inject_Z hi)).
Qed.

End FieldVerdicts.

Section Acceptance.

Variable isURL : string -> bool.

(** When every variable is acceptable, the object is the record the
    configuration denotes, without issues. *)
Lemma envObject_fields_ok input :
  fields_ok isURL input = true ->
  envObject isURL input = Zod.valid (record_of input).
Proof.
  unfold fields_ok. cbn [forallb enumerated_variables bounded_variables
                           nonempty_variables fst snd].
  rewrite !andb_true_r. intros H.
  repeat match goal with
         | H : _ && _ = true |- _ => apply andb_prop in H as [? ?]
         end.
  unfold envObject.
  repeat (erewrite property_valid;
          [|first [ by apply enum_default_valid
                  | by apply flag_valid
                  | by apply string_default_valid
                  | by apply optional_min_length_valid
                  | by apply optional_url_valid
                  | by apply number_valid ]]).
  reflexivity.
Qed.

(** An object without issues has every variable acceptable. *)
Lemma envObject_issues_fields_ok input :
  Zod.issues (envObject isURL input) = [] ->
  fields_ok isURL input = true.
Proof.
  unfold envObject. intros Hi.
  repeat (apply ap_issues_nil in Hi as [Hi ?%property_issues_nil]).
  unfold fields_ok. cbn [forallb enumerated_variables bounded_variables
                           nonempty_variables fst snd].
  rewrite !andb_true_r.
  repeat (apply andb_true_intro; split);
    eauto using enum_default_rejects, flag_rejects, string_default_rejects,
      optional_min_length_rejects, optional_url_rejects, number_rejects.
Qed.

(** The refinement on the record of a configuration. *)
Lemma refine_record_of input :
  refine_oauth_pair (record_of input) = []
  <-> truthy (input !! "GOOGLE_CLIENT_ID")
      = truthy (input !! "GOOGLE_CLIENT_SECRET").
Proof.
  unfold refine_oauth_pair. simpl.
  destruct (truthy (input !! "GOOGLE_CLIENT_ID")),
    (truthy (input !! "GOOGLE_CLIENT_SECRET")); simpl; split; congruence.
Qed.

(** Parsing succeeds exactly on the acceptable configurations, with the
    record they denote. *)
Lemma envSchema_Success_iff input e :
  Zod.parse (envSchema isURL input) = Zod.Success e
  <-> accepts isURL input = true /\ e = record_of input.
Proof.
  unfold accepts. split.
  - intros He. destruct (envSchema_Success _ _ _ He) as (Hv & Hi & Hr).
    pose proof (envObject_issues_fields_ok _ Hi) as Hok.
    rewrite (envObject_fields_ok _ Hok) in Hv. injection Hv as <-.
    rewrite Hok. split; [|done]. simpl.
    apply refine_record_of in Hr. rewrite Hr. apply eqb_reflx.
  - intros [Hacc ->]. apply andb_prop in Hacc as [Hok Hpair].
    apply parse_Success. unfold envSchema, Zod.superRefine, Zod.check.
    rewrite (envObject_fields_ok _ Hok). simpl.
    apply eqb_prop in Hpair. apply refine_record_of in Hpair.
    rewrite Hpair. done.
Qed.

(** A rejection carries at least one issue. *)
Lemma envSchema_ZodError_nonempty input errors :
  Zod.parse (envSchema isURL input) = Zod.ZodError errors ->
  errors = Zod.issues (envSchema isURL input) /\ errors <> [].
Proof.
  intros He.
  assert (Herr : errors = Zod.issues (envSchema isURL input)).
  { unfold Zod.parse in He.
    destruct (Zod.issues (envSchema isURL input)) as [|i l],
      (Zod.value (envSchema isURL input)); congruence. }
  split; [done|]. intros ->. symmetry in Herr.
  unfold envSchema, Zod.superRefine in Herr.
  apply check_issues_nil in Herr as [Hi Hr].
  pose proof (envObject_issues_fields_ok _ Hi) as Hok.
  pose proof (envObject_fields_ok _ Hok) as Hobj.
  assert (Hs : Zod.parse (envSchema isURL input)
               = Zod.Success (record_of input)).
  { apply parse_Success. unfold envSchema, Zod.superRefine, Zod.check.
    rewrite Hobj in Hr |- *. simpl. rewrite (Hr _ eq_refl). done. }
  congruence.
Qed.

End Acceptance.

(* ===================================================================== *)
(** * More on [validateEnv] *)
(* ===================================================================== *)

Section ValidateEnvOutcome.

Variable isURL : string -> bool.

(** The guard's test on the record of a configuration is the guard
    condition on the configuration. *)
Lemma guard_test_iff (process_env : gmap string string) :
  String.eqb (NEXTAUTH_SECRET (record_of process_env)) "dev-secret"
  && String.eqb (NODE_ENV (record_of process_env)) "production"
  && negb (bool_decide (process_env !! "CI" = Some "true"))
  && negb (bool_decide
             (process_env !! "NEXT_PHASE" = Some "phase-production-build"))
  = true
  <-> guard_condition process_env.
Proof.
  unfold guard_condition. simpl.
  rewrite !andb_true_iff, !negb_true_iff, !bool_decide_eq_false,
    !String.eqb_eq.
  split.
  - intros [[[Hs Hn] Hc] Hb]. repeat split; try done.
    destruct (process_env !! "NODE_ENV"); simpl in Hn; [by subst|done].
  - intros (Hs & Hn & Hc & Hb). rewrite Hn. done.
Qed.

(** The three ways [validateEnv] ends, decided by the configuration. *)
Lemma validateEnv_cases (process_env : gmap string string) :
  (accepts isURL process_env = false /\
   snd (validateEnv isURL process_env) = Throws validation_message) \/
  (accepts isURL process_env = true /\ guard_condition process_env /\
   snd (validateEnv isURL process_env) = Throws guard_message) \/
  (accepts isURL process_env = true /\ ~ guard_condition process_env /\
   exists e,
     snd (validateEnv isURL process_env) = Returns e /\
     (e = record_of process_env \/
      e = set_AUTH_TRUST_HOST true (record_of process_env))).
Proof.
  destruct (accepts isURL process_env) eqn:Hacc.
  - right.
    assert (Hp : Zod.parse (envSchema isURL process_env)
                 = Zod.Success (record_of process_env))
      by (by apply envSchema_Success_iff).
    destruct (validateEnv_Success isURL _ _ Hp) as [Ht Hf].
    pose proof (guard_test_iff process_env) as Hg.
    match type of Ht with ?g = true -> _ => destruct g end.
    + left. split; [done|]. split; [by apply Hg|]. by apply Ht.
    + right. split; [done|]. split; [|by apply Hf].
      intros Hc. apply Hg in Hc. discriminate.
  - left. split; [done|].
    destruct (parse_cases (envSchema isURL process_env))
      as [[e He]|[errors He]].
    + apply envSchema_Success_iff in He as [He _]. congruence.
    + eauto using validateEnv_ZodError.
Qed.

(** Acceptance, from the returned record's side. *)
Lemma validateEnv_Returns_accepts (process_env : gmap string string) e :
  snd (validateEnv isURL process_env) = Returns e ->
  accepts isURL process_env = true /\
  (e = record_of process_env \/
   e = set_AUTH_TRUST_HOST true (record_of process_env)).
Proof.
  intros He.
  destruct (validateEnv_cases process_env)
    as [[_ H]|[(_ & _ & H)|(Hacc & _ & e' & H & Hcases)]];
    rewrite H in He; try discriminate.
  injection He as <-. done.
Qed.

(** A host-trust flag that is set is taken as set. *)
Lemma validateEnv_host_trust_set (process_env : gmap string string) e s :
  snd (validateEnv isURL process_env) = Returns e ->
  process_env !! "AUTH_TRUST_HOST" = Some s ->
  AUTH_TRUST_HOST e = isTrue s /\ (s = "true" \/ s = "false").
Proof.
  intros He Hs.
  destruct (validateEnv_Returns _ _ _ He) as (parsed & Hp & _).
  pose proof Hp as Hacc.
  apply envSchema_Success_iff in Hacc as [Hacc ->].
  apply andb_prop in Hacc as [Hok _]. unfold fields_ok in Hok.
  cbn [forallb enumerated_variables fst snd] in Hok.
  repeat match goal with
         | H : _ && _ = true |- _ => apply andb_prop in H as [? ?]
         end.
  match goal with
  | H : enum_ok _ (process_env !! "AUTH_TRUST_HOST") = true |- _ =>
      rewrite Hs in H; simpl in H; rename H into Henum
  end.
  assert (Hval : s = "true" \/ s = "false").
  { rewrite orb_false_r in Henum. apply orb_prop in Henum as [H'|H'];
      apply String.eqb_eq in H'; auto. }
  split; [|done].
  unfold validateEnv in He. rewrite Hp, Hs in He.
  assert (Htr : truthy (Some s) = true) by (by destruct Hval as [-> | ->]).
  rewrite Htr, andb_false_r in He. simpl in He.
  match type of He with
  | snd (if ?c then _ else _) = _ => destruct c
  end; simpl in He; [discriminate|].
  injection He as <-. simpl. by rewrite Hs.
Qed.

End ValidateEnvOutcome.

(* ===================================================================== *)
(** * Acceptable variables are within range *)
(* ===================================================================== *)

Lemma existsb_eqb_elem_of (s : string) (options : list string) :
  existsb (String.eqb s) options = true <-> s ∈ options.
Proof.
  rewrite existsb_exists, list_elem_of_In. split.
  - intros (x & Hin & ->%String.eqb_eq). done.
  - intros Hin. exists s. split; [done|]. apply String.eqb_refl.
Qed.

Lemma enum_ok_default d options input :
  enum_ok options input = true -> d ∈ options -> default d input ∈ options.
Proof.
  destruct input as [s|]; simpl; [|done].
  intros Hs _. by apply existsb_eqb_elem_of.
Qed.

Lemma nonempty_ok_default d input :
  nonempty_ok input = true -> d <> "" -> default d input <> "".
Proof.
  destruct input as [s|]; simpl; [|done].
  intros Hs _ ->. discriminate.
Qed.

Lemma number_ok_between d lo hi input :
  number_ok (lo, hi) input = true ->
  between lo hi d -> between lo hi (number_or d input).
Proof.
  unfold number_ok, number_or, between. destruct input as [s|]; [|done].
  destruct (JsNumber.Number s) as [| |q]; try discriminate. simpl.
  intros [Hlo Hhi]%andb_prop _. by rewrite <- !Qle_bool_iff.
Qed.

Lemma between_literal (lo hi d : Z) :
  (lo <= d)%Z -> (d <= hi)%Z -> between lo hi (inject_Z d).
Proof. unfold between. rewrite <- !Zle_Qle. done. Qed.

Lemma oauth_pair_ok (cid csec : option string) :
  nonempty_ok cid = true -> nonempty_ok csec = true ->
  truthy cid = truthy csec ->
  (cid = None /\ csec = None) \/
  (exists a b, cid = Some a /\ csec = Some b /\ a <> "" /\ b <> "").
Proof.
  destruct cid as [a|], csec as [b|]; simpl; intros Ha Hb Heq;
    rewrite ?Ha, ?Hb in Heq; try discriminate.
  - right. exists a, b. repeat split; intros ->; discriminate.
  - by left.
Qed.

(** The record of an acceptable configuration is within range. *)
Lemma record_of_in_range isURL (input : gmap string string) :
  accepts isURL input = true -> in_range isURL (record_of input).
Proof.
  intros Hacc. apply andb_prop in Hacc as [Hok Hpair]. apply eqb_prop in Hpair.
  unfold fields_ok in Hok.
  cbn [forallb enumerated_variables bounded_variables nonempty_variables
         fst snd] in Hok.
  rewrite !andb_true_r in Hok.
  repeat match goal with
         | H : _ && _ = true |- _ => apply andb_prop in H as [? ?]
         end.
  constructor; simpl.
  - apply enum_ok_default; [done|set_solver].
  - by apply nonempty_ok_default.
  - intros u Hu. by rewrite Hu in *.
  - by apply oauth_pair_ok.
  - apply number_ok_between; [done|]. by apply between_literal.
  - apply number_ok_between; [done|]. by apply between_literal.
  - apply enum_ok_default; [done|set_solver].
  - apply enum_ok_default; [done|set_solver].
  - apply enum_ok_default; [done|set_solver].
  - apply number_ok_between; [done|]. by apply between_literal.
  - apply number_ok_between; [done|]. by apply between_literal.
  - apply number_ok_between; [done|]. by apply between_literal.
Qed.

(* ===================================================================== *)
(** * Further properties of the Environment Validator *)
(* ===================================================================== *)

Section EnvironmentValidatorMore.

Variable isURL : string -> bool.



(** X3. The host-trust flag of the returned record. A flag that is set is
    taken as set ("true" gives true, "false" gives false) whatever the
    hosting platform; a flag that is not set is true exactly when CF_PAGES
    or VERCEL is set to a non-empty string. *)
Theorem host_trust_flag (process_env : gmap string string) (e : Env) :
  snd (validateEnv isURL process_env) = Returns e ->
  (forall s,
      process_env !! "AUTH_TRUST_HOST" = Some s ->
      AUTH_TRUST_HOST e = isTrue s /\ (s = "true" \/ s = "false")) /\
  (process_env !! "AUTH_TRUST_HOST" = None ->
   AUTH_TRUST_HOST e
   = truthy (process_env !! "CF_PAGES") || truthy (process_env !! "VERCEL")).
Proof.
  intros He. split.
  - intros s Hs. by apply (validateEnv_host_trust_set isURL process_env).
  - by apply (validateEnv_host_trust_default isURL).
Qed.

(** X4. Every record that [validateEnv] returns is within the ranges of
    the schema: the enumerated fields hold one of their strings, the
    secret is non-empty, the URL parses, the OAuth client identifier and
    secret are both non-empty or both absent, and the numbers lie within
    their bounds. *)
Theorem validateEnv_in_range (process_env : gmap string string) (e : Env) :
  snd (validateEnv isURL process_env) = Returns e ->
  in_range isURL e.
Proof.
  intros He. apply validateEnv_Returns_accepts in He as [Hacc Hcases].
  pose proof (record_of_in_range _ _ Hacc) as Hr.
  destruct Hcases as [-> | ->]; [done|].
  destruct Hr. constructor; assumption.
Qed.

(** X5. On a record that [validateEnv] returns, exactly one of
    [isDevelopment], [isProduction] and [isTest] holds. *)
Theorem exactly_one_mode (process_env : gmap string string) (e : Env) :
  snd (validateEnv isURL process_env) = Returns e ->
  (isDevelopment e = true /\ isProduction e = false /\ isTest e = false) \/
  (isDevelopment e = false /\ isProduction e = true /\ isTest e = false) \/
  (isDevelopment e = false /\ isProduction e = false /\ isTest e = true).
Proof.
  intros He. apply validateEnv_Returns_accepts in He as [Hacc Hcases].
  pose proof (range_NODE_ENV _ _ (record_of_in_range _ _ Hacc)) as Hmode.
  assert (Hn : NODE_ENV e = NODE_ENV (record_of process_env))
    by (destruct Hcases as [-> | ->]; reflexivity).
  unfold isDevelopment, isProduction, isTest. rewrite Hn.
  apply elem_of_cons in Hmode as [-> | Hmode]; [by left|].
  apply elem_of_cons in Hmode as [-> | Hmode]; [by right; left|].
  apply elem_of_cons in Hmode as [-> | Hmode]; [by right; right|].
  by apply elem_of_nil in Hmode.
Qed.

(** X6. [validateEnv] depends on the variables it reads and on nothing
    else: two configurations that agree on them give the same console
    lines and the same outcome. *)
Theorem validateEnv_reads_only (p1 p2 : gmap string string) :
  (forall key, key ∈ read_variables -> p1 !! key = p2 !! key) ->
  validateEnv isURL p1 = validateEnv isURL p2.
Proof.
  intros Hagree.
  assert (Hall : Forall (fun key => p1 !! key = p2 !! key) read_variables)
    by (apply Forall_forall; exact Hagree).
  unfold read_variables in Hall.
  repeat match type of Hall with
         | Forall _ (_ :: _) =>
             apply Forall_cons in Hall as [? Hall]
         end.
  unfold validateEnv, envSchema, envObject, Zod.property.
  repeat match goal with
         | H : p1 !! _ = p2 !! _ |- _ => rewrite H; clear H
         end.
  reflexivity.
Qed.

(** X7. An enumerated variable set to a string outside its list (the
    match is exact and case-sensitive) fails validation. This covers
    NODE_ENV, ANALYTICS_SINK, LOG_LEVEL, LOG_FORMAT and the five
    "true"/"false" flags. *)
Theorem enumerated_variable_rejected (process_env : gmap string string)
    (key : string) (options : list string) (s : string) :
  (key, options) ∈ enumerated_variables ->
  process_env !! key = Some s ->
  s ∉ options ->
  validation_fails isURL process_env.
Proof.
  intros Hkey Hs Hout. apply not_Success_fails. intros e He.
  apply envSchema_Success_iff in He as [Hacc _].
  apply andb_prop in Hacc as [Hok _]. unfold fields_ok in Hok.
  repeat match goal with
         | H : _ && _ = true |- _ => apply andb_prop in H as [? ?]
         end.
  match goal with
  | H : forallb _ enumerated_variables = true |- _ =>
      pose proof (proj1 (forallb_forall _ _) H (key, options)
                    (proj1 (list_elem_of_In _ _) Hkey)) as Henum
  end.
  cbn [fst snd] in Henum. rewrite Hs in Henum.
  by apply Hout, existsb_eqb_elem_of.
Qed.

(** X8. A numeric variable that is set fails validation unless
    [Number] of its string is a finite number within the bounds of the
    variable; in particular a string that is not a number fails. This
    covers the five numeric variables. *)
Theorem bounded_variable_rejected (process_env : gmap string string)
    (key : string) (lo hi : Z) (s : string) :
  (key, (lo, hi)) ∈ bounded_variables ->
  process_env !! key = Some s ->
  (forall q, JsNumber.Number s = JsNumber.Finite q -> ~ between lo hi q) ->
  validation_fails isURL process_env.
Proof.
  intros Hkey Hs Hout. apply not_Success_fails. intros e He.
  apply envSchema_Success_iff in He as [Hacc _].
  apply andb_prop in Hacc as [Hok _]. unfold fields_ok in Hok.
  repeat match goal with
         | H : _ && _ = true |- _ => apply andb_prop in H as [? ?]
         end.
  match goal with
  | H : forallb _ bounded_variables = true |- _ =>
      pose proof (proj1 (forallb_forall _ _) H (key, (lo, hi))
                    (proj1 (list_elem_of_In _ _) Hkey)) as Hok'
  end.
  cbn [fst snd] in Hok'. rewrite Hs in Hok'.
  unfold number_ok in Hok'.
  destruct (JsNumber.Number s) as [| |q] eqn:Hq; try discriminate.
  apply andb_prop in Hok' as [Hlo Hhi]. simpl in Hlo, Hhi.
  apply (Hout q eq_refl). split; by apply Qle_bool_iff.
Qed.

(** X9. A string variable guarded by [min(1)] (NEXTAUTH_SECRET,
    GOOGLE_CLIENT_ID, GOOGLE_CLIENT_SECRET) that is set to the empty string
    fails validation, and so does a NEXTAUTH_URL that the URL parser
    rejects. *)
Theorem string_variable_rejected (process_env : gmap string string) :
  (forall key,
      key ∈ nonempty_variables ->
      process_env !! key = Some "" ->
      validation_fails isURL process_env) /\
  (forall s,
      process_env !! "NEXTAUTH_URL" = Some s ->
      isURL s = false ->
      validation_fails isURL process_env).
Proof.
  split.
  - intros key Hkey Hs. apply not_Success_fails. intros e He.
    apply envSchema_Success_iff in He as [Hacc _].
    apply andb_prop in Hacc as [Hok _]. unfold fields_ok in Hok.
    repeat match goal with
           | H : _ && _ = true |- _ => apply andb_prop in H as [? ?]
           end.
    match goal with
    | H : forallb _ nonempty_variables = true |- _ =>
        pose proof (proj1 (forallb_forall _ _) H key
                      (proj1 (list_elem_of_In _ _) Hkey)) as Hne
    end.
    cbn beta in Hne. rewrite Hs in Hne. discriminate.
  - intros s Hs Hurl. apply not_Success_fails. intros e He.
    apply envSchema_Success_iff in He as [Hacc _].
    apply andb_prop in Hacc as [Hok _]. unfold fields_ok in Hok.
    apply andb_prop in Hok as [_ Hu]. rewrite Hs in Hu. simpl in Hu.
    congruence.
Qed.

(** X10. What [validateEnv] writes to the console. It writes nothing when
    it returns, one line when the guard fires, and otherwise the header,
    one line per issue in the order of the issues, of which there is at
    least one, and the footer. *)
Theorem validateEnv_console (process_env : gmap string string) :
  let console := fst (validateEnv isURL process_env) in
  let outcome := snd (validateEnv isURL process_env) in
  (forall e, outcome = Returns e -> console = []) /\
  (outcome = Throws guard_message -> length console = 1) /\
  (outcome = Throws validation_message ->
   exists errors,
     errors <> [] /\
     Zod.parse (envSchema isURL process_env) = Zod.ZodError errors /\
     console = failure_header ++ map issue_line errors ++ failure_footer).
Proof.
  intros console outcome. subst console outcome. unfold validateEnv.
  destruct (Zod.parse (envSchema isURL process_env)) as [parsed|errors] eqn:Hp.
  - match goal with
    | |- context [if ?c then ([Line _], _) else _] => destruct c
    end; simpl; repeat split; try discriminate; done.
  - simpl. repeat split; try discriminate.
    intros _. exists errors.
    by destruct (envSchema_ZodError_nonempty _ _ _ Hp).
Qed.

End EnvironmentValidatorMore.

(* ===================================================================== *)
(** * Further properties of the Authentication Configurator *)
(* ===================================================================== *)

Section CredentialsProviderMore.

Context `{Collaborators}.

(** Every run of [authorize] is one of five: turned away before any call;
    no row; a row without a hash; a rejected password; an accepted one. *)
Lemma run_authorize_cases (credentials : option Credentials) :
  ((absent_or_empty (credentials ≫= cred_email) \/
    absent_or_empty (credentials ≫= cred_password)) /\
   run (authorize credentials) = ([], Throws missing_credentials_message)) \/
  exists addr pw,
    credentials ≫= cred_email = Some addr /\
    credentials ≫= cred_password = Some pw /\
    addr <> "" /\ pw <> "" /\
    ((findUnique addr = None /\
      run (authorize credentials)
      = ([CallFindUnique addr], Throws invalid_credentials_message)) \/
     exists row,
       findUnique addr = Some row /\
       ((truthy (row_password row) = false /\
         run (authorize credentials)
         = ([CallFindUnique addr], Throws invalid_credentials_message)) \/
        exists hash,
          row_password row = Some hash /\ hash <> "" /\
          ((verify pw hash = false /\
            run (authorize credentials)
            = ([CallFindUnique addr; CallVerifyPassword pw hash],
               Throws invalid_credentials_message)) \/
           (verify pw hash = true /\
            run (authorize credentials)
            = ([CallFindUnique addr; CallVerifyPassword pw hash],
               Returns {| id := Str (toString (row_id row));
                          email := Str (row_email row);
                          name := nullable (row_name row);
                          image := nullable (row_image row) |}))))).
Proof.
  unfold absent_or_empty.
  destruct (credentials ≫= cred_email) as [addr|] eqn:Ha;
    [|left; split; [by left; left|];
      unfold authorize; rewrite Ha; reflexivity].
  destruct (credentials ≫= cred_password) as [pw|] eqn:Hp;
    [|left; split; [by right; left|];
      unfold authorize; rewrite Ha, Hp; simpl;
      by rewrite orb_true_r].
  destruct (String.eqb_spec addr "") as [->|Hane];
    [left; split; [by left; right|];
     unfold authorize; rewrite Ha; reflexivity|].
  destruct (String.eqb_spec pw "") as [->|Hpne];
    [left; split; [by right; right|];
     unfold authorize; rewrite Ha, Hp; simpl; by rewrite orb_true_r|].
  right. exists addr, pw. repeat split; try done.
  assert (Hrun : authorize credentials
                 = authorize (Some (mkCredentials (Some addr) (Some pw)))).
  { unfold authorize. rewrite Ha, Hp. reflexivity. }
  rewrite Hrun, (authorize_submitted _ _ Hane Hpne). simpl.
  destruct (findUnique addr) as [row|]; [|by left].
  right. exists row. split; [done|].
  destruct (row_password row) as [hash|] eqn:Hh; simpl; [|by left].
  destruct (String.eqb_spec hash "") as [->|Hhne]; simpl; [by left|].
  right. exists hash. repeat split; try done.
  destruct (verify pw hash); simpl; [by right|by left].
Qed.

(** X11. [authorize] returns a user only after the verifier accepted the
    submitted password against the non-empty hash stored in the row found
    for the submitted email, and the user is the projection of that row. *)
Theorem authorize_returns_only_verified (credentials : option Credentials)
    (user : User) :
  snd (run (authorize credentials)) = Returns user ->
  exists addr pw row hash,
    credentials ≫= cred_email = Some addr /\
    credentials ≫= cred_password = Some pw /\
    findUnique addr = Some row /\
    row_password row = Some hash /\ hash <> "" /\
    verify pw hash = true /\
    user = {| id := Str (toString (row_id row));
              email := Str (row_email row);
              name := nullable (row_name row);
              image := nullable (row_image row) |}.
Proof.
  intros Hret.
  destruct (run_authorize_cases credentials)
    as [[_ Hrun]|(addr & pw & Ha & Hp & _ & _ &
          [[_ Hrun]|(row & Hrow &
             [[_ Hrun]|(hash & Hh & Hne &
                [[_ Hrun]|[Hv Hrun]])])])];
    rewrite Hrun in Hret; simpl in Hret; try discriminate.
  injection Hret as <-. exists addr, pw, row, hash. done.
Qed.


End CredentialsProviderMore.

Section CallbacksMore.

Implicit Types (token : gmap string JsValue) (user : User).

(** The four keys of the user projection of a session after
    materialization hold what the token holds; the rest is kept. *)
Lemma session_user_lookup (s : Session) token (u : gmap string JsValue) :
  session_user s = Some u ->
  exists u',
    session_user (session s (Some token)) = Some u' /\
    u' !! "id" = Some (get token "id") /\
    u' !! "email" = Some (get token "email") /\
    u' !! "name" = Some (get token "name") /\
    u' !! "image" = Some (get token "picture") /\
    (forall key,
        key ∉ ["id"; "email"; "name"; "image"] -> u' !! key = u !! key).
Proof.
  intros Hu. unfold session. rewrite Hu. eexists. split; [reflexivity|].
  repeat split.
  - do 3 (rewrite lookup_insert_ne by done). apply lookup_insert_eq.
  - do 2 (rewrite lookup_insert_ne by done). apply lookup_insert_eq.
  - rewrite lookup_insert_ne by done. apply lookup_insert_eq.
  - apply lookup_insert_eq.
  - intros key Hkey.
    rewrite !lookup_insert_ne; [done|..];
      intros <-; apply Hkey; set_solver.
Qed.

(** X13. Sign-in, end to end through the two callbacks: the session
    materialized from the token that [jwt] returns for a freshly
    authenticated user shows that user's id, email, name and image,
    whatever the token and the session held before. *)
Theorem session_after_jwt (s : Session) token user
    (u : gmap string JsValue) :
  session_user s = Some u ->
  exists u',
    session_user (session s (Some (jwt token (Some user)))) = Some u' /\
    u' !! "id" = Some (id user) /\
    u' !! "email" = Some (email user) /\
    u' !! "name" = Some (name user) /\
    u' !! "image" = Some (image user).
Proof.
  intros Hu.
  destruct (session_user_lookup s (jwt token (Some user)) u Hu)
    as (u' & Hs & Hid & Hemail & Hname & Himage & _).
  exists u'. split; [done|].
  unfold get, jwt in *.
  rewrite Hid, Hemail, Hname, Himage.
  repeat split; f_equal.
  - do 3 (rewrite lookup_insert_ne by done). by rewrite lookup_insert_eq.
  - do 2 (rewrite lookup_insert_ne by done). by rewrite lookup_insert_eq.
  - rewrite lookup_insert_ne by done. by rewrite lookup_insert_eq.
  - by rewrite lookup_insert_eq.
Qed.


(** X15. In [jwt] the last authentication wins: a second freshly
    authenticated user replaces the first one in the token, and the same
    user twice is the same as once. *)
Theorem jwt_last_user_wins token (user1 user2 : User) :
  jwt (jwt token (Some user1)) (Some user2) = jwt token (Some user2).
Proof.
  unfold jwt. apply map_eq. intros key.
  rewrite !lookup_insert. repeat case_decide; reflexivity.
Qed.

End CallbacksMore.

Section PolicyObjectMore.

Variable isURL : string -> bool.

(** X16. A policy object that loads never has a half-configured OAuth
    provider: the client identifier and secret that [authConfig] hands to
    the Google provider, read from [process.env], are both absent or both
    non-empty strings. *)
Theorem loaded_google_provider_paired (process_env : gmap string string)
    (config : NextAuthConfig) (cid csec : option string)
    (params : list (string * string)) :
  load isURL process_env = Returns config ->
  Google cid csec params ∈ providers config ->
  (cid = None /\ csec = None) \/
  (exists a b, cid = Some a /\ csec = Some b /\ a <> "" /\ b <> "").
Proof.
  unfold load. intros Hload Hin.
  destruct (snd (validateEnv isURL process_env)) as [env|msg] eqn:He;
    [|discriminate].
  injection Hload as <-.
  apply validateEnv_Returns_accepts in He as [Hacc _].
  pose proof (range_GOOGLE_CLIENT _ _ (record_of_in_range _ _ Hacc)) as Hpair.
  simpl in Hpair, Hin.
  apply elem_of_cons in Hin as [[= -> -> _]|Hin]; [exact Hpair|].
  apply elem_of_cons in Hin as [Hin|Hin]; [discriminate|].
  by apply elem_of_nil in Hin.
Qed.

(** X17. The host-trust setting of a policy object that loads: an
    AUTH_TRUST_HOST that is set decides it, and otherwise the hosting
    platform variables CF_PAGES and VERCEL do. *)
Theorem loaded_trust_host (process_env : gmap string string)
    (config : NextAuthConfig) :
  load isURL process_env = Returns config ->
  trustHost config
  = match process_env !! "AUTH_TRUST_HOST" with
    | Some s => isTrue s
    | None => truthy (process_env !! "CF_PAGES")
              || truthy (process_env !! "VERCEL")
    end.
Proof.
  unfold load. intros Hload.
  destruct (snd (validateEnv isURL process_env)) as [env|msg] eqn:He;
    [|discriminate].
  injection Hload as <-. simpl.
  destruct (process_env !! "AUTH_TRUST_HOST") as [s|] eqn:Hs.
  - by destruct (validateEnv_host_trust_set isURL _ _ _ He Hs).
  - by apply (validateEnv_host_trust_default isURL).
Qed.

End PolicyObjectMore.

(* ===================================================================== *)
(** * The further properties at concrete configurations and attempts *)
(* ===================================================================== *)



(** X3 under VERCEL: forced to true when not set, kept false when set. *)
Lemma host_trust_flag_witness :
  AUTH_TRUST_HOST (set_AUTH_TRUST_HOST true all_defaults) = true /\
  AUTH_TRUST_HOST all_defaults = isTrue "false".
Proof.
  split.
  - apply (proj2 (host_trust_flag sample_isURL vercel_env
                    (set_AUTH_TRUST_HOST true all_defaults)
                    ltac:(vm_compute; reflexivity))).
    reflexivity.
  - apply (proj1 (host_trust_flag sample_isURL vercel_untrusted_env
                    all_defaults ltac:(vm_compute; reflexivity)) "false").
    reflexivity.
Defined.

(** X4 at the empty configuration. *)
Lemma validateEnv_in_range_witness : in_range sample_isURL all_defaults.
Proof.
  apply (validateEnv_in_range sample_isURL ∅). vm_compute. reflexivity.
Defined.

(** X5 at the empty configuration: development. *)
Lemma exactly_one_mode_witness :
  (isDevelopment all_defaults = true /\ isProduction all_defaults = false /\
   isTest all_defaults = false) \/
  (isDevelopment all_defaults = false /\ isProduction all_defaults = true /\
   isTest all_defaults = false) \/
  (isDevelopment all_defaults = false /\ isProduction all_defaults = false /\
   isTest all_defaults = true).
Proof.
  apply (exactly_one_mode sample_isURL ∅). vm_compute. reflexivity.
Defined.

(** X6 at a configuration with PATH set. *)
Lemma validateEnv_reads_only_witness :
  validateEnv sample_isURL production_env_with_path
  = validateEnv sample_isURL production_env.
Proof.
  apply validateEnv_reads_only. intros key Hkey.
  apply lookup_insert_ne. intros <-.
  repeat (apply elem_of_cons in Hkey as [Hkey|Hkey]; [discriminate|]).
  by apply elem_of_nil in Hkey.
Defined.

(** X7 at LOG_LEVEL = "info". *)
Lemma enumerated_variable_rejected_witness :
  validation_fails sample_isURL lowercase_log_level_env.
Proof.
  apply (enumerated_variable_rejected sample_isURL lowercase_log_level_env
           "LOG_LEVEL" ["DEBUG"; "INFO"; "WARN"; "ERROR"] "info").
  - unfold enumerated_variables.
    do 5 apply list_elem_of_further. apply list_elem_of_here.
  - reflexivity.
  - intros Hin.
    repeat (apply elem_of_cons in Hin as [Hin|Hin]; [discriminate|]).
    by apply elem_of_nil in Hin.
Defined.

(** X8 at CACHE_DEFAULT_TTL = "one hour". *)
Lemma bounded_variable_rejected_witness :
  validation_fails sample_isURL cache_ttl_not_a_number_env.
Proof.
  apply (bounded_variable_rejected sample_isURL cache_ttl_not_a_number_env
           "CACHE_DEFAULT_TTL" 1 86400 "one hour").
  - unfold bounded_variables.
    do 3 apply list_elem_of_further. apply list_elem_of_here.
  - reflexivity.
  - intros q Hq. vm_compute in Hq. discriminate.
Defined.

(** X9 at an empty secret and at a relative URL. *)
Lemma string_variable_rejected_witness :
  validation_fails sample_isURL empty_secret_env /\
  validation_fails sample_isURL relative_url_env.
Proof.
  split.
  - apply (proj1 (string_variable_rejected sample_isURL empty_secret_env)
             "NEXTAUTH_SECRET").
    + apply list_elem_of_here.
    + reflexivity.
  - apply (proj2 (string_variable_rejected sample_isURL relative_url_env)
             "/api/auth"); reflexivity.
Defined.

(** X10 at the empty configuration and at an empty secret. *)
Lemma validateEnv_console_witness :
  fst (validateEnv sample_isURL ∅) = [] /\
  exists errors,
    errors <> [] /\
    Zod.parse (envSchema sample_isURL empty_secret_env)
    = Zod.ZodError errors /\
    fst (validateEnv sample_isURL empty_secret_env)
    = failure_header ++ map issue_line errors ++ failure_footer.
Proof.
  split.
  - apply (proj1 (validateEnv_console sample_isURL ∅) all_defaults).
    vm_compute. reflexivity.
  - apply (proj2 (proj2 (validateEnv_console sample_isURL empty_secret_env))).
    vm_compute. reflexivity.
Defined.

(** X11 at the right password. *)
Lemma authorize_returns_only_verified_witness :
  exists addr pw row hash,
    Some "ann@example.com" = Some addr /\
    Some "correct horse" = Some pw /\
    @findUnique one_account addr = Some row /\
    row_password row = Some hash /\ hash <> "" /\
    @verify one_account pw hash = true /\
    ann_user = {| id := Str (toString (row_id row));
                  email := Str (row_email row);
                  name := nullable (row_name row);
                  image := nullable (row_image row) |}.
Proof.
  apply (@authorize_returns_only_verified one_account
           (Some (mkCredentials (Some "ann@example.com")
                                (Some "correct horse"))) ann_user).
  reflexivity.
Defined.


(** X13 at a stale session and a token that only holds a subject. *)
Lemma session_after_jwt_witness :
  exists u',
    session_user
      (session stale_session (Some (jwt subject_token (Some ann_user))))
    = Some u' /\
    u' !! "id" = Some (Str "7") /\
    u' !! "email" = Some (Str "ann@example.com") /\
    u' !! "name" = Some (Str "Ann") /\
    u' !! "image" = Some null.
Proof.
  apply (session_after_jwt stale_session subject_token ann_user
           (<["name" := Str "Bob"]> {["role" := Str "admin"]})).
  reflexivity.
Defined.


(** X16 at a configuration with the client identifier and secret. *)
Lemma loaded_google_provider_paired_witness :
  (Some "client-id.apps.example.com" = None /\ Some "client-secret" = None)
  \/
  (exists a b,
      Some "client-id.apps.example.com" = Some a /\
      Some "client-secret" = Some b /\ a <> "" /\ b <> "").
Proof.
  apply (loaded_google_provider_paired sample_isURL client_pair_env
           (authConfig client_pair_env (record_of client_pair_env))
           (Some "client-id.apps.example.com") (Some "client-secret")
           [("prompt", "consent"); ("access_type", "offline");
            ("response_type", "code")]).
  - vm_compute. reflexivity.
  - apply list_elem_of_here.
Defined.

(** X17 under VERCEL. *)
Lemma loaded_trust_host_witness :
  trustHost (authConfig vercel_env (set_AUTH_TRUST_HOST true all_defaults))
  = true.
Proof.
  apply (loaded_trust_host sample_isURL vercel_env
           (authConfig vercel_env (set_AUTH_TRUST_HOST true all_defaults))).
  vm_compute. reflexivity.
Defined.
